(** * pymultifracs: the multifractal spectrum estimator

    A shallow embedding of [src/mfanalysis/mfspectrum.py], class
    [MultifractalSpectrum], and the properties of its specification.

    Conventions of the embedding.
    - Python integers (scales, [j1], [j2], [wtype], the counts [nj]) are [Z].
    - Python exceptions are the [Raise] branch of [result]; a method that
      raises returns no object.
    - A Python [dict] keyed by scale is an association list in insertion
      order: [list(mrq.values)] is the list of its keys.
    - numpy's float arithmetic is an interface, [Numeric]: the loops, the
      indexing and the slicing of the estimator are proved for every
      implementation of it.  Two implementations are given.  [RealArith] is
      the implementation by real numbers: exact arithmetic, with no rounding
      and no inf or nan (the values numpy gives to log2 of 0 or to 0 raised
      to a negative power are not represented); the regression of the
      specification is stated in it.  [Float64] is binary64, the arithmetic
      of the code, by primitive floats, with numpy's order of summation: in
      it a property of exact arithmetic can fail by rounding.
    - numpy arrays of one dimension are lists; a two-dimensional array is the
      list of its rows. *)

From Stdlib Require Import String.
From Stdlib Require Import ZArith List Bool Lia Reals Lra.
From Stdlib Require Floats.
Import ListNotations.

Set Implicit Arguments.
Local Open Scope Z_scope.

(* ================================================================= *)
(** ** Exceptions and results *)

(** The exceptions the estimator can meet.  [KeyError] and [IndexError] are
    Python's own; [ValueError] is numpy's complaint about operands of
    different shapes; the last three are the error kinds of the
    specification. *)
Inductive exn : Type :=
| KeyError (key : Z)
| IndexError
| ValueError
| InvalidRangeError
| EmptyMomentSetError
| DegenerateRegressionError.

Inductive result (A : Type) : Type :=
| Ok (a : A)
| Raise (e : exn).

Arguments Ok {A} a.
Arguments Raise {A} e.

Definition bind {A B : Type} (r : result A) (k : A -> result B) : result B :=
  match r with
  | Ok a => k a
  | Raise e => Raise e
  end.

Definition fmap {A B : Type} (f : A -> B) (r : result A) : result B :=
  match r with
  | Ok a => Ok (f a)
  | Raise e => Raise e
  end.

Notation "x <- e ;; k" := (bind e (fun x => k))
  (at level 61, e at next level, right associativity).
Notation "' p <- e ;; k" := (bind e (fun x => match x with p => k end))
  (at level 61, p pattern, e at next level, right associativity).

(* ================================================================= *)
(** ** The Python and numpy constructs the estimator uses *)

Module Py.

(** [for a in l: s = body a s], stopping at the first exception. *)
Fixpoint for_each {A S : Type} (l : list A) (body : A -> S -> result S)
    (s : S) : result S :=
  match l with
  | [] => Ok s
  | a :: l' => s' <- body a s ;; for_each l' body s'
  end.

(** [[f(a) for a in l]] where [f] may raise. *)
Fixpoint map_result {A B : Type} (f : A -> result B) (l : list A)
    : result (list B) :=
  match l with
  | [] => Ok []
  | a :: l' => b <- f a ;; bs <- map_result f l' ;; Ok (b :: bs)
  end.

(** [enumerate(l)]. *)
Definition enumerate {A : Type} (l : list A) : list (nat * A) :=
  combine (seq 0 (length l)) l.

(** [range(a, b)], also [np.arange(a, b)] on integers: [a, a+1, ..., b-1],
    empty when [b <= a]. *)
Definition range (a b : Z) : list Z :=
  map (fun k => a + Z.of_nat k) (seq 0 (Z.to_nat (b - a))).

(** A dict keyed by integers: the pairs (key, value) in insertion order.  A
    Python dict holds each key once; [lookup] takes the first pair of a
    key. *)
Definition dict (V : Type) : Type := list (Z * V).

(** [list(d)]: the keys, in insertion order. *)
Definition keys {V : Type} (d : dict V) : list Z := map fst d.

Fixpoint lookup {V : Type} (d : dict V) (k : Z) : option V :=
  match d with
  | [] => None
  | (k', v) :: d' => if k' =? k then Some v else lookup d' k
  end.

(** [d[k]]: raises [KeyError] on a missing key. *)
Definition getitem {V : Type} (d : dict V) (k : Z) : result V :=
  match lookup d k with
  | Some v => Ok v
  | None => Raise (KeyError k)
  end.

(** One bound of a slice over a sequence of length [n]: a negative bound
    counts from the end, and the bound is then clipped to [0..n]. *)
Definition slice_index (n i : Z) : Z :=
  if i <? 0 then Z.max (i + n) 0 else Z.min i n.

(** [l[start:stop]]: never raises. *)
Definition slice {A : Type} (start stop : Z) (l : list A) : list A :=
  let n := Z.of_nat (length l) in
  let a := slice_index n start in
  let b := slice_index n stop in
  firstn (Z.to_nat (b - a)) (skipn (Z.to_nat a) l).

(** [a[i] = v] for an index from [enumerate]: [IndexError] out of range. *)
Fixpoint setitem {A : Type} (a : list A) (i : nat) (v : A)
    : result (list A) :=
  match a, i with
  | [], _ => Raise IndexError
  | _ :: a', O => Ok (v :: a')
  | h :: a', S i' => t <- setitem a' i' v ;; Ok (h :: t)
  end.

End Py.

(** numpy's float arithmetic, as far as the estimator uses it. *)
Class Numeric (F : Type) : Type := {
fzero : F;                       (* 0.0, the entries of np.zeros *)
fone : F;                        (* 1.0, the entries of np.ones *)
fadd : F -> F -> F;              (* + *)
fmul : F -> F -> F;              (* * *)
fdiv : F -> F -> F;              (* / *)
of_int : Z -> F;                 (* an integer used as a float *)
np_abs : F -> F;                 (* np.abs *)
np_power : F -> F -> F;          (* np.power *)
np_log2 : F -> F;                (* np.log2 *)
np_sum : list F -> F             (* a.sum() *)
}.

Module Np.
Section Arrays.
Context {F : Type} `{Numeric F}.

Definition matrix : Type := list (list F).

(** [np.zeros(n)], [np.ones(n)], [np.zeros((rows, cols))]. *)
Definition zeros (n : nat) : list F := repeat fzero n.
Definition ones (n : nat) : list F := repeat fone n.
Definition zeros2 (rows cols : nat) : matrix := repeat (zeros cols) rows.

(** [a * b] on two arrays of one length. *)
Definition mul_arrays (a b : list F) : list F :=
  map (fun p => fmul (fst p) (snd p)) (combine a b).

(** [M[i, k] = v]. *)
Definition setitem2 (M : matrix) (i k : nat) (v : F) : result matrix :=
  match nth_error M i with
  | None => Raise IndexError
  | Some row => row' <- Py.setitem row k v ;; Py.setitem M i row'
  end.

Definition getitem2 (M : matrix) (i k : nat) : option F :=
  match nth_error M i with
  | None => None
  | Some row => nth_error row k
  end.

(** [M[:, k]] on the rows of [M]. *)
Definition column (M : matrix) (k : nat) : result (list F) :=
  Py.map_result
    (fun row => match nth_error row k with
                | Some v => Ok v
                | None => Raise IndexError
                end) M.

(** [M[start:stop, k]]: the rows are sliced, the column is indexed.  numpy
    checks [k] against the number of columns even when no row is selected;
    the estimator only uses column indices from [enumerate(self.q)] on
    matrices of [len(self.q)] columns. *)
Definition slice_column (M : matrix) (start stop : Z) (k : nat)
    : result (list F) :=
  column (Py.slice start stop M) k.

End Arrays.
End Np.

(* ================================================================= *)
(** ** The data model *)

(** Modelled from the spec: the class [MultiResolutionQuantity], which is not
    among the sources.  The spec: "identified by a name and a mapping from
    integer scale j to nj[j] (count of coefficients at scale j) and values[j]
    (a sequence of real-valued magnitudes, possibly signed)".  The estimator
    reads the attributes [mrq.name], [mrq.nj] and [mrq.values] only, the last
    two as dicts keyed by scale. *)
Record MultiResolutionQuantity (F : Type) : Type := {
  mrq_name : string;
  mrq_nj : Py.dict Z;
  mrq_values : Py.dict (list F)
}.

(** [WaveletParameters = namedtuple('WaveletParameters', 'j1 j2 wtype')]. *)
Module WaveletParameters.
Record t : Type := {
  j1 : Z;
  j2 : Z;
  wtype : Z
}.
End WaveletParameters.

(** The attributes of a [MultifractalSpectrum] object.  [Dq] and [hq] are
    [None] until [_compute] has run; [U] and [V] do not exist before
    [_compute] sets them. *)
Record MultifractalSpectrum (F : Type) : Type := {
  self_mrq : MultiResolutionQuantity F;
  self_j : list Z;
  self_q : list F;
  self_Dq : option (list F);
  self_hq : option (list F);
  self_wt_param : WaveletParameters.t;
  self_U : option (list (list F));
  self_V : option (list (list F))
}.

Arguments Build_MultiResolutionQuantity {F} _ _ _.
Arguments Build_MultifractalSpectrum {F} _ _ _ _ _ _ _ _.

(* ================================================================= *)
(** ** The estimator: class [MultifractalSpectrum] *)

Section Estimator.
Context {F : Type} `{Numeric F}.

(** [Utils().linear_regression(x, y, wj)], of module [utils], which is not
    among the sources: a parameter of the estimator.  It is given the integer
    array [x], the float array [y] and the weights, and returns the pair
    (slope, intercept) or raises. *)
Variable linear_regression : list Z -> list F -> list F -> result (F * F).

(** [get_nj_interv] (lines 108-115): [nj] as a list, for [j] in [j1..j2]. *)
Definition get_nj_interv (self : MultifractalSpectrum F) (j1 j2 : Z)
    : result (list Z) :=
  Py.for_each (Py.range j1 (j2 + 1))
    (fun j nj => n <- Py.getitem (mrq_nj (self_mrq self)) j ;; Ok (nj ++ [n]))
    [].

(** The body of the loop over [q] at scale [j], row [ind_j] (lines 55-61). *)
Definition statistics_at (ind_j : nat) (nj : Z) (mrq_values_j : list F)
    (iq : nat * F) (UV : Np.matrix * Np.matrix)
    : result (Np.matrix * Np.matrix) :=
  let '(ind_q, qq) := iq in
  let '(U, V) := UV in
  let temp := map (fun m => np_power m qq) mrq_values_j in
  let R_q_j := map (fun t => fdiv t (np_sum temp)) temp in
  V' <- Np.setitem2 V ind_j ind_q
          (np_sum (Np.mul_arrays R_q_j (map np_log2 mrq_values_j))) ;;
  U' <- Np.setitem2 U ind_j ind_q
          (fadd (np_log2 (of_int nj))
                (np_sum (Np.mul_arrays R_q_j (map np_log2 R_q_j)))) ;;
  Ok (U', V').

(** The body of the loop over the scales (lines 51-61). *)
Definition statistics_row (self : MultifractalSpectrum F) (ij : nat * Z)
    (UV : Np.matrix * Np.matrix) : result (Np.matrix * Np.matrix) :=
  let '(ind_j, j) := ij in
  nj <- Py.getitem (mrq_nj (self_mrq self)) j ;;
  values_j <- Py.getitem (mrq_values (self_mrq self)) j ;;
  let mrq_values_j := map np_abs values_j in
  Py.for_each (Py.enumerate (self_q self))
    (statistics_at ind_j nj mrq_values_j) UV.

(** Lines 47-61: [U] and [V], filled from zeros over every scale of
    [self.j] and every order of [self.q]. *)
Definition compute_UV (self : MultifractalSpectrum F)
    : result (Np.matrix * Np.matrix) :=
  let U := Np.zeros2 (length (self_j self)) (length (self_q self)) in
  let V := Np.zeros2 (length (self_j self)) (length (self_q self)) in
  Py.for_each (Py.enumerate (self_j self)) (statistics_row self) (U, V).

(** The body of the loop of the regressions (lines 78-86). *)
Definition regression_at (U V : Np.matrix) (j1 j2 : Z) (x : list Z)
    (wj : list F) (iq : nat * F) (Dh : list F * list F)
    : result (list F * list F) :=
  let '(ind_q, _) := iq in
  let '(Dq, hq) := Dh in
  y <- Np.slice_column U (j1 - 1) j2 ind_q ;;
  z <- Np.slice_column V (j1 - 1) j2 ind_q ;;
  '(slope_1, intercept_1) <- linear_regression x y wj ;;
  '(slope_2, intercept_2) <- linear_regression x z wj ;;
  Dq' <- Py.setitem Dq ind_q (fadd fone slope_1) ;;
  hq' <- Py.setitem hq ind_q slope_2 ;;
  Ok (Dq', hq').

(** Lines 72-76: the weights. *)
Definition weights (self : MultifractalSpectrum F) (x : list Z)
    : result (list F) :=
  let wt := self_wt_param self in
  if WaveletParameters.wtype wt =? 1
  then nj <- get_nj_interv self (WaveletParameters.j1 wt)
                                (WaveletParameters.j2 wt) ;;
       Ok (map of_int nj)
  else Ok (Np.ones (length x)).

(** Lines 66-86: [Dq] and [hq] from the matrices [U] and [V]. *)
Definition compute_Dq_hq (self : MultifractalSpectrum F) (U V : Np.matrix)
    : result (list F * list F) :=
  let wt := self_wt_param self in
  let Dq := Np.zeros (length (self_q self)) in
  let hq := Np.zeros (length (self_q self)) in
  let x := Py.range (WaveletParameters.j1 wt) (WaveletParameters.j2 wt + 1) in
  wj <- weights self x ;;
  Py.for_each (Py.enumerate (self_q self))
    (regression_at U V (WaveletParameters.j1 wt) (WaveletParameters.j2 wt)
       x wj)
    (Dq, hq).

(** [_compute] (lines 42-89). *)
Definition _compute (self : MultifractalSpectrum F)
    : result (MultifractalSpectrum F) :=
  '(U, V) <- compute_UV self ;;
  let self :=
    {| self_mrq := self_mrq self; self_j := self_j self;
       self_q := self_q self; self_Dq := self_Dq self;
       self_hq := self_hq self; self_wt_param := self_wt_param self;
       self_U := Some U; self_V := Some V |} in
  '(Dq, hq) <- compute_Dq_hq self U V ;;
  Ok {| self_mrq := self_mrq self; self_j := self_j self;
        self_q := self_q self; self_Dq := Some Dq;
        self_hq := Some hq; self_wt_param := self_wt_param self;
        self_U := self_U self; self_V := self_V self |}.

(** [__init__] (lines 29-40): the attributes as set before the call of
    [_compute] on line 40, then the call. *)
Definition init_state (mrq : MultiResolutionQuantity F) (q : list F)
    (j1 j2 wtype : Z) : MultifractalSpectrum F :=
  {| self_mrq := mrq;
     self_j := Py.keys (mrq_values mrq);
     self_q := q;
     self_Dq := None;
     self_hq := None;
     self_wt_param :=
       {| WaveletParameters.j1 := j1; WaveletParameters.j2 := j2;
          WaveletParameters.wtype := wtype |};
     self_U := None;
     self_V := None |}.

Definition __init__ (mrq : MultiResolutionQuantity F) (q : list F)
    (j1 j2 wtype : Z) : result (MultifractalSpectrum F) :=
  _compute (init_state mrq q j1 j2 wtype).

(** What a caller reads off the object: [(hq, Dq)]. *)
Definition spectrum (r : result (MultifractalSpectrum F))
    : result (option (list F) * option (list F)) :=
  fmap (fun self => (self_hq self, self_Dq self)) r.

End Estimator.

(* ================================================================= *)
(** ** The specification's formulas *)

Section Specification.
Context {F : Type} `{Numeric F}.

(** "Compute w = m^q element-wise.  Normalize: R = w / sum(w)." *)
Definition spec_R (m : list F) (qq : F) : list F :=
  let w := map (fun x => np_power x qq) m in
  map (fun t => fdiv t (np_sum w)) w.

(** "V[j,q] = sum(R * log2(m))", with m = |values[j]|. *)
Definition spec_V (values_j : list F) (qq : F) : F :=
  let m := map np_abs values_j in
  np_sum (Np.mul_arrays (spec_R m qq) (map np_log2 m)).

(** "U[j,q] = log2(nj) + sum(R * log2(R))". *)
Definition spec_U (nj : Z) (values_j : list F) (qq : F) : F :=
  let m := map np_abs values_j in
  let R := spec_R m qq in
  fadd (np_log2 (of_int nj)) (np_sum (Np.mul_arrays R (map np_log2 R))).

(** [U] at a scale of [nj] coefficients under the uniform weighting: every
    entry of R is r = 1 / (the sum of nj ones), and
    U = log2(nj) + (the sum of nj copies of r * log2(r)).  The coefficients
    do not occur in it. *)
Definition uniform_U (nj : Z) : F :=
  let n := Z.to_nat nj in
  let r := fdiv fone (np_sum (repeat fone n)) in
  fadd (np_log2 (of_int nj)) (np_sum (repeat (fmul r (np_log2 r)) n)).

(** The two statistics of scale [j] of an MRQ for every order of [q]: the
    row of [U] and the row of [V]. *)
Definition scale_rows (mrq : MultiResolutionQuantity F) (q : list F) (j : Z)
    : result (list F * list F) :=
  nj <- Py.getitem (mrq_nj mrq) j ;;
  values_j <- Py.getitem (mrq_values mrq) j ;;
  Ok (map (spec_U nj values_j) q, map (spec_V values_j) q).

(** [U[j, q]] and [V[j, q]] by scale, not by row. *)
Definition scale_U (mrq : MultiResolutionQuantity F) (qq : F) (j : Z)
    : result F :=
  nj <- Py.getitem (mrq_nj mrq) j ;;
  values_j <- Py.getitem (mrq_values mrq) j ;;
  Ok (spec_U nj values_j qq).

Definition scale_V (mrq : MultiResolutionQuantity F) (qq : F) (j : Z)
    : result F :=
  values_j <- Py.getitem (mrq_values mrq) j ;;
  Ok (spec_V values_j qq).

(** "Build per-j weights wj: all ones if wtype = ordinary; else
    wj[k] = nj[x[k]]."  The code takes [wtype == 1] for weighted-by-count
    and anything else for ordinary. *)
Definition spec_weights (mrq : MultiResolutionQuantity F) (wtype : Z)
    (x : list Z) : result (list F) :=
  if wtype =? 1
  then Py.map_result
         (fun j => n <- Py.getitem (mrq_nj mrq) j ;; Ok (of_int n)) x
  else Ok (map (fun _ => fone) x).

(** One moment order: "Run weighted linear regression of y against x with
    weights wj -> (slope_D, intercept_D).  Run weighted linear regression of
    z against x with weights wj -> (slope_h, intercept_h).  Dq[q] = 1 +
    slope_D; hq[q] = slope_h.  Intercepts are discarded."  The result is the
    pair (Dq[q], hq[q]). *)
Definition spec_regress
    (regress : list Z -> list F -> list F -> result (F * F))
    (x : list Z) (wj y z : list F) : result (F * F) :=
  '(slope_D, intercept_D) <- regress x y wj ;;
  '(slope_h, intercept_h) <- regress x z wj ;;
  Ok (fadd fone slope_D, slope_h).

(** The same on column [ind_q] of the rows [(j1-1):j2] of [U] and [V]. *)
Definition regress_column
    (regress : list Z -> list F -> list F -> result (F * F))
    (U V : Np.matrix) (j1 j2 : Z) (x : list Z) (wj : list F) (ind_q : nat)
    : result (F * F) :=
  y <- Np.slice_column U (j1 - 1) j2 ind_q ;;
  z <- Np.slice_column V (j1 - 1) j2 ind_q ;;
  spec_regress regress x wj y z.

(** The scales of the MRQ are exactly 1..jmax, in increasing order, each
    with its count. *)
Definition scales_are (mrq : MultiResolutionQuantity F) (jmax : Z) : Prop :=
  Py.keys (mrq_values mrq) = Py.range 1 (jmax + 1) /\
  forall j, 1 <= j <= jmax -> Py.lookup (mrq_nj mrq) j <> None.

(** The invariant of the data model: scales 1..jmax, and at each scale
    [nj[j]] is positive and is the number of coefficients [values[j]]. *)
Definition valid_mrq (mrq : MultiResolutionQuantity F) (jmax : Z) : Prop :=
  scales_are mrq jmax /\
  forall j n values_j,
    Py.lookup (mrq_nj mrq) j = Some n ->
    Py.lookup (mrq_values mrq) j = Some values_j ->
    0 < n /\ n = Z.of_nat (length values_j).

(** Two MRQs agree at scale [j]: the same count and the same coefficients
    (or the scale is missing from both). *)
Definition agree_at (a b : MultiResolutionQuantity F) (j : Z) : Prop :=
  Py.lookup (mrq_nj a) j = Py.lookup (mrq_nj b) j /\
  Py.lookup (mrq_values a) j = Py.lookup (mrq_values b) j.

End Specification.

(* ================================================================= *)
(** ** Plotting: method [plot] *)

(** The calls of [matplotlib.pyplot] that [plot] makes, with their
    arguments.  A figure label is a number or a name. *)
Inductive plt_call (F : Type) : Type :=
| plt_figure (num : Z + string)
| plt_plot (x y : option (list F)) (fmt : string)
| plt_grid
| plt_xlabel (s : string)
| plt_ylabel (s : string)
| plt_suptitle (t : string)
| plt_draw.

Arguments plt_figure {F} num.
Arguments plt_plot {F} x y fmt.
Arguments plt_grid {F}.
Arguments plt_xlabel {F} s.
Arguments plt_ylabel {F} s.
Arguments plt_suptitle {F} t.
Arguments plt_draw {F}.

(** [plot] (lines 91-106), as the sequence of its calls. *)
Definition plot {F : Type} (self : MultifractalSpectrum F)
    (figlabel : option (Z + string)) : list (plt_call F) :=
  let figlabel :=
    match figlabel with
    | None => inr "Multifractal Spectrum"%string
    | Some l => l
    end in
  [ plt_figure figlabel;
    plt_plot (self_hq self) (self_Dq self) "ko-"%string;
    plt_grid;
    plt_xlabel "h(q)"%string;
    plt_ylabel "D(q)"%string;
    plt_suptitle
      (String.append (mrq_name (self_mrq self))
                     " - multifractal spectrum"%string);
    plt_draw ].

(* ================================================================= *)
(** ** The estimate of one moment order *)

Section ByOrder.
Context {F : Type} `{Numeric F}.

(** The pair (Dq, hq) of the moment order [qq]: the statistics of [qq] at
    the scales whose rows the slice [(j1-1):j2] selects, regressed against
    [x = j1..j2] with the weights [wj]. *)
Definition order_spectrum
    (regress : list Z -> list F -> list F -> result (F * F))
    (mrq : MultiResolutionQuantity F) (j1 j2 : Z) (wj : list F) (qq : F)
    : result (F * F) :=
  let scales := Py.slice (j1 - 1) j2 (Py.keys (mrq_values mrq)) in
  y <- Py.map_result (scale_U mrq qq) scales ;;
  z <- Py.map_result (scale_V mrq qq) scales ;;
  spec_regress regress (Py.range j1 (j2 + 1)) wj y z.

(** Two MRQs have the same scales and counts, and coefficients of the same
    absolute values. *)
Definition same_magnitudes (a b : MultiResolutionQuantity F) : Prop :=
  mrq_nj a = mrq_nj b /\
  Py.keys (mrq_values a) = Py.keys (mrq_values b) /\
  forall j,
    option_map (map np_abs) (Py.lookup (mrq_values a) j)
    = option_map (map np_abs) (Py.lookup (mrq_values b) j).

End ByOrder.

(* ================================================================= *)
(** ** Exact arithmetic *)

Module RealArith.
Local Open Scope R_scope.

(** [np.power] on reals, for a base that is an absolute value, as the
    estimator uses it: anything to the power 0 is 1, 0 to a positive power
    is 0, and a positive base to the power [q] is [exp (q * ln m)].  0 to a
    negative power is inf in numpy and has no real value; the model gives 0
    there.  A negative base is never met. *)
Definition power (m q : R) : R :=
  if Req_dec_T q 0 then 1
  else if Req_dec_T m 0 then 0
  else Rpower m q.

(** [np.log2] on positive reals.  On 0 and below numpy gives -inf or nan,
    which have no real value; the model gives [ln]'s value there. *)
Definition log2 (x : R) : R := ln x / ln 2.

(** The exact sum of an array; the sum of the empty array is 0. *)
Definition sum (l : list R) : R := fold_right Rplus 0 l.

#[global] Instance numeric : Numeric R := {
  fzero := 0;
  fone := 1;
  fadd := Rplus;
  fmul := Rmult;
  fdiv := Rdiv;
  of_int := IZR;
  np_abs := Rabs;
  np_power := power;
  np_log2 := log2;
  np_sum := sum
}.

End RealArith.

(* ================================================================= *)
(** ** Binary64 arithmetic *)

(** numpy's float64 is the binary64 format of IEEE 754 with rounding to the
    nearest even: Rocq's primitive floats.  [+], [*], [/] and [np.abs] are
    operations of the format.  [np.power] and [np.log2] are library
    routines that the primitive floats do not provide; they are given at
    the arguments that the sample of eleven coefficients below meets. *)
Module Float64.

(** An integer used as a float: the nearest float, which is the integer
    itself below 2^53 in absolute value (the counts are). *)
Definition of_int (z : Z) : PrimFloat.float :=
  if z <? 0
  then PrimFloat.opp (PrimFloat.of_uint63 (Uint63.of_Z (- z)))
  else PrimFloat.of_uint63 (Uint63.of_Z z).

(** [np.power]: every base to the power 0 is 1.0.  For another exponent
    the value is left as not a number. *)
Definition power (m q : PrimFloat.float) : PrimFloat.float :=
  if PrimFloat.eqb q PrimFloat.zero then PrimFloat.one else PrimFloat.nan.

(** The base-2 logarithm of 11 rounded to the nearest float:
    0x1.bacea7c065d42p+1 = 3.4594316186372973. *)
Definition log2_of_11 : PrimFloat.float :=
  FloatOps.SF2Prim (SpecFloat.S754_finite false 0x1bacea7c065d42 (-51)).

(** [np.log2] at 1.0, at 11.0 and at 1.0 / 11.0 (the float
    0x1.745d1745d1746p-4): the logarithm rounded to the nearest float, which
    is 0.0, [log2_of_11] and its opposite.  For another argument the value
    is left as not a number. *)
Definition log2 (x : PrimFloat.float) : PrimFloat.float :=
  if PrimFloat.eqb x PrimFloat.one then PrimFloat.zero
  else if PrimFloat.eqb x (of_int 11) then log2_of_11
  else if PrimFloat.eqb x (PrimFloat.div PrimFloat.one (of_int 11))
  then PrimFloat.opp log2_of_11
  else PrimFloat.nan.

(** [res += a[i]] for the entries of [a] in turn. *)
Definition add_each (res : PrimFloat.float) (a : list PrimFloat.float)
    : PrimFloat.float :=
  fold_left PrimFloat.add a res.

(** [r[k] += a[i + k]] for k = 0..7, for [blocks] blocks of eight entries
    of [a]. *)
Fixpoint add_blocks (blocks : nat) (r a : list PrimFloat.float)
    : list PrimFloat.float :=
  match blocks with
  | O => r
  | S blocks' =>
      add_blocks blocks'
        (map (fun p => PrimFloat.add (fst p) (snd p)) (combine r (firstn 8 a)))
        (skipn 8 a)
  end.

(** A block of 8 to 128 entries: eight accumulators, added up as
    ((r0 + r1) + (r2 + r3)) + ((r4 + r5) + (r6 + r7)), then the entries
    left over when the length is no multiple of 8. *)
Definition block_sum (a : list PrimFloat.float) : PrimFloat.float :=
  let n := length a in
  match add_blocks (n / 8 - 1)%nat (firstn 8 a) (skipn 8 a) with
  | [r0; r1; r2; r3; r4; r5; r6; r7] =>
      add_each
        (PrimFloat.add
           (PrimFloat.add (PrimFloat.add r0 r1) (PrimFloat.add r2 r3))
           (PrimFloat.add (PrimFloat.add r4 r5) (PrimFloat.add r6 r7)))
        (skipn (8 * (n / 8))%nat a)
  | _ => PrimFloat.nan
  end.

(** numpy's pairwise summation of a float array: fewer than 8 entries are
    added in turn, starting from -0.0; up to 128 entries are one block; a
    longer array is split in two near the middle, at a multiple of 8.
    [fuel] bounds the depth of the splitting. *)
Fixpoint pairwise_sum (fuel : nat) (a : list PrimFloat.float)
    : PrimFloat.float :=
  let n := length a in
  if (n <? 8)%nat then add_each PrimFloat.neg_zero a
  else if (n <=? 128)%nat then block_sum a
  else
    match fuel with
    | O => PrimFloat.nan
    | S fuel' =>
        let n2 := (n / 2 - (n / 2) mod 8)%nat in
        PrimFloat.add (pairwise_sum fuel' (firstn n2 a))
                      (pairwise_sum fuel' (skipn n2 a))
    end.

(** [a.sum()]: the reduction starts from 0.0 and adds the pairwise sum of
    the array. *)
Definition sum (a : list PrimFloat.float) : PrimFloat.float :=
  PrimFloat.add PrimFloat.zero (pairwise_sum (length a) a).

#[global] Instance numeric : Numeric PrimFloat.float := {
  fzero := PrimFloat.zero;
  fone := PrimFloat.one;
  fadd := PrimFloat.add;
  fmul := PrimFloat.mul;
  fdiv := PrimFloat.div;
  of_int := of_int;
  np_abs := PrimFloat.abs;
  np_power := power;
  np_log2 := log2;
  np_sum := sum
}.

End Float64.

(* ================================================================= *)
(** ** The regression routine *)

Module Utils.
Local Open Scope R_scope.

(** The sum of the products [a[i] * b[i]]. *)
Definition dot (a b : list R) : R :=
  RealArith.sum (map (fun p => fst p * snd p) (combine a b)).

(** Modelled from the spec: [Utils.linear_regression], of module [utils],
    which is not among the sources.  The spec: given [x], [y] and per-point
    weights of one length, it returns the (slope, intercept) minimizing the
    weighted squared error, and fails with a [DegenerateRegressionError] if
    [x] has fewer than 2 distinct points.  The minimizer is given in closed
    form, by the normal equations of weighted least squares.  Arrays of
    different lengths are outside the spec's contract; they are refused with
    numpy's [ValueError]. *)
Definition linear_regression (x : list Z) (y w : list R) : result (R * R) :=
  if (length (nodup Z.eq_dec x) <? 2)%nat
  then Raise DegenerateRegressionError
  else if negb ((length y =? length x)%nat && (length w =? length x)%nat)
  then Raise ValueError
  else
    let xr := map IZR x in
    let S0 := RealArith.sum w in
    let S1 := dot w xr in
    let S2 := dot w (map (fun t => t * t) xr) in
    let Sy := dot w y in
    let Sxy := dot w (map (fun p => fst p * snd p) (combine xr y)) in
    let D := S0 * S2 - S1 * S1 in
    Ok ((S0 * Sxy - S1 * Sy) / D, (S2 * Sy - S1 * Sxy) / D).

(** The weighted squared error of the line [a * x + b]. *)
Definition weighted_sse (x : list Z) (y w : list R) (a b : R) : R :=
  dot w (map (fun p => (snd p - (a * IZR (fst p) + b)) *
                       (snd p - (a * IZR (fst p) + b)))
             (combine x y)).

End Utils.


(* ================================================================= *)
(** ** Sample inputs *)

Module Sample.
Local Open Scope R_scope.

(** Three scales: two coefficients at scales 1 and 2, one at scale 3. *)
Definition mrq3 : MultiResolutionQuantity R :=
  {| mrq_name := "sample"%string;
     mrq_nj := [(1, 2); (2, 2); (3, 1)]%Z;
     mrq_values := [(1%Z, [1; -2]); (2%Z, [4; 1]); (3%Z, [2])] |}.

(** Five scales of one coefficient each, all equal to 1. *)
Definition flat5 : MultiResolutionQuantity R :=
  {| mrq_name := "flat"%string;
     mrq_nj := [(1, 1); (2, 1); (3, 1); (4, 1); (5, 1)]%Z;
     mrq_values :=
       [(1%Z, [1]); (2%Z, [1]); (3%Z, [1]); (4%Z, [1]); (5%Z, [1])] |}.

(** [flat5] with the coefficient of scale 4 changed to 2. *)
Definition bump5 : MultiResolutionQuantity R :=
  {| mrq_name := "bump"%string;
     mrq_nj := [(1, 1); (2, 1); (3, 1); (4, 1); (5, 1)]%Z;
     mrq_values :=
       [(1%Z, [1]); (2%Z, [1]); (3%Z, [1]); (4%Z, [2]); (5%Z, [1])] |}.

End Sample.

(** More sample inputs. *)
Module Sample2.
Local Open Scope R_scope.

(** [Sample.mrq3] with every coefficient replaced by its absolute value,
    under another name. *)
Definition mrq3_abs : MultiResolutionQuantity R :=
  {| mrq_name := "magnitudes"%string;
     mrq_nj := [(1, 2); (2, 2); (3, 1)]%Z;
     mrq_values := [(1%Z, [1; 2]); (2%Z, [4; 1]); (3%Z, [2])] |}.

(** Three scales that do not start at 1: the scales 2, 3 and 4, of one
    coefficient each. *)
Definition scales_2_to_4 : MultiResolutionQuantity R :=
  {| mrq_name := "from 2"%string;
     mrq_nj := [(2, 1); (3, 1); (4, 1)]%Z;
     mrq_values := [(2%Z, [1]); (3%Z, [1]); (4%Z, [2])] |}.

(** Scale 2 of the coefficients has no count. *)
Definition mrq3_no_count : MultiResolutionQuantity R :=
  {| mrq_name := "sample"%string;
     mrq_nj := [(1, 2); (3, 1)]%Z;
     mrq_values := [(1%Z, [1; -2]); (2%Z, [4; 1]); (3%Z, [2])] |}.

End Sample2.

(** A sample input in binary64. *)
Module Sample64.

(** One scale of eleven coefficients, all 1.0. *)
Definition ones11 : MultiResolutionQuantity PrimFloat.float :=
  {| mrq_name := "eleven"%string;
     mrq_nj := [(1, 11)];
     mrq_values := [(1, repeat PrimFloat.one 11)] |}.

End Sample64.

(* ================================================================= *)
(** ** Facts about the Python constructs *)

Unset Implicit Arguments.

Lemma bind_ok {A B : Type} (r : result A) (k : A -> result B) (b : B) :
  bind r k = Ok b -> exists a, r = Ok a /\ k a = Ok b.
Proof. destruct r as [a|e]; simpl; [eauto | discriminate]. Qed.

Lemma bind_raise {A B : Type} (r : result A) (k : A -> result B) (e : exn) :
  bind r k = Raise e -> r = Raise e \/ exists a, r = Ok a /\ k a = Raise e.
Proof. destruct r as [a|e']; simpl; [eauto | intros [= ->]; auto]. Qed.

Section PyFacts.
Context {A B S : Type}.

(** Two loops over one list with bodies that agree on its elements. *)
Lemma for_each_ext (l : list A) (f g : A -> S -> result S) (s : S) :
  (forall a s', In a l -> f a s' = g a s') ->
  Py.for_each l f s = Py.for_each l g s.
Proof.
  revert s; induction l as [|a l IH]; intros s Hfg; simpl; [reflexivity|].
  rewrite (Hfg a s (or_introl eq_refl)).
  destruct (g a s) as [s'|e]; simpl; [|reflexivity].
  apply IH; intros; apply Hfg; right; assumption.
Qed.

(** A loop raises only what one of its iterations raises. *)
Lemma for_each_raise (l : list A) (body : A -> S -> result S) (s : S)
    (e : exn) :
  Py.for_each l body s = Raise e ->
  exists a s', In a l /\ body a s' = Raise e.
Proof.
  revert s; induction l as [|a l IH]; intros s; simpl; [discriminate|].
  intros Hr; apply bind_raise in Hr as [Hr | [s' [_ Hr]]].
  - exists a, s; auto.
  - destruct (IH _ Hr) as [a' [s'' [Hin Hb]]]; exists a', s''; auto.
Qed.

(** An invariant of the state is kept by a loop that keeps it at each
    iteration. *)
Lemma for_each_invariant (P : S -> Prop) (l : list A)
    (body : A -> S -> result S) (s s' : S) :
  (forall a t t', In a l -> P t -> body a t = Ok t' -> P t') ->
  P s -> Py.for_each l body s = Ok s' -> P s'.
Proof.
  revert s; induction l as [|a l IH]; intros s Hb Hs; simpl.
  - intros [= <-]; assumption.
  - intros Hr. destruct (body a s) as [t|e] eqn:Ht; simpl in Hr; [|discriminate].
    apply (IH t); auto.
    + intros; eapply Hb; eauto; right; assumption.
    + eapply Hb; eauto; left; reflexivity.
Qed.

Lemma map_result_ok_length (f : A -> result B) (l : list A) (r : list B) :
  Py.map_result f l = Ok r -> length r = length l.
Proof.
  revert r; induction l as [|a l IH]; simpl; intros r.
  - intros [= <-]; reflexivity.
  - destruct (f a); simpl; [|discriminate].
    destruct (Py.map_result f l); simpl; [|discriminate].
    intros [= <-]; simpl; f_equal; auto.
Qed.

Lemma map_result_nth (f : A -> result B) (l : list A) (r : list B)
    (i : nat) (a : A) :
  Py.map_result f l = Ok r -> nth_error l i = Some a ->
  exists b, f a = Ok b /\ nth_error r i = Some b.
Proof.
  revert r i; induction l as [|a' l IH]; simpl; intros r i Hr Hi.
  - destruct i; discriminate.
  - destruct (f a') as [b'|] eqn:Hf; simpl in Hr; [|discriminate].
    destruct (Py.map_result f l) as [bs|]; simpl in Hr; [|discriminate].
    injection Hr as <-. destruct i as [|i]; simpl in *.
    + injection Hi as <-; eauto.
    + eapply IH; eauto.
Qed.

Lemma map_result_ext (f g : A -> result B) (l : list A) :
  (forall a, In a l -> f a = g a) -> Py.map_result f l = Py.map_result g l.
Proof.
  induction l as [|a l IH]; simpl; intros Hfg; [reflexivity|].
  rewrite (Hfg a (or_introl eq_refl)), IH; auto.
Qed.

Lemma map_result_all_ok (f : A -> result B) (g : A -> B) (l : list A) :
  (forall a, In a l -> f a = Ok (g a)) -> Py.map_result f l = Ok (map g l).
Proof.
  induction l as [|a l IH]; simpl; intros Hfg; [reflexivity|].
  rewrite (Hfg a (or_introl eq_refl)), IH; auto.
Qed.

Lemma map_result_raise (f : A -> result B) (l : list A) (e : exn) :
  Py.map_result f l = Raise e -> exists a, In a l /\ f a = Raise e.
Proof.
  induction l as [|a l IH]; simpl; [discriminate|].
  destruct (f a) as [b|e'] eqn:Hf; simpl.
  - destruct (Py.map_result f l); simpl; [discriminate|].
    intros [= ->]. destruct IH as [a' [? ?]]; eauto.
  - intros [= ->]; eauto.
Qed.

Lemma setitem_app (pre post : list A) (c v : A) (i : nat) :
  length pre = i ->
  Py.setitem (pre ++ c :: post) i v = Ok (pre ++ v :: post).
Proof.
  revert i; induction pre as [|h pre IH]; intros i <-; simpl; [reflexivity|].
  rewrite (IH _ eq_refl); reflexivity.
Qed.

Lemma setitem_length (a a' : list A) (i : nat) (v : A) :
  Py.setitem a i v = Ok a' -> length a' = length a.
Proof.
  revert i a'; induction a as [|h a IH]; intros [|i] a'; simpl;
    try discriminate.
  - intros [= <-]; reflexivity.
  - destruct (Py.setitem a i v) eqn:E; simpl; [|discriminate].
    intros [= <-]; simpl; f_equal; eauto.
Qed.

Lemma setitem_raise (a : list A) (i : nat) (v : A) (e : exn) :
  Py.setitem a i v = Raise e -> (length a <= i)%nat.
Proof.
  revert i; induction a as [|h a IH]; intros [|i]; simpl; try lia;
    try discriminate.
  destruct (Py.setitem a i v) eqn:E; simpl; [discriminate|].
  intros [= ->]. apply IH in E; lia.
Qed.

End PyFacts.

(* ================================================================= *)
(** ** The statistics loops (lines 47-61) *)

Section Statistics.
Context {F : Type} `{Numeric F}.

Lemma setitem2_app (top bot : Np.matrix) (pre post : list F) (c v : F)
    (i k : nat) :
  length top = i -> length pre = k ->
  Np.setitem2 (top ++ (pre ++ c :: post) :: bot) i k v
  = Ok (top ++ (pre ++ v :: post) :: bot).
Proof.
  intros Hi Hk. unfold Np.setitem2.
  rewrite nth_error_app2 by lia.
  replace (i - length top)%nat with 0%nat by lia. simpl.
  rewrite (setitem_app pre post c v k Hk). simpl.
  apply setitem_app; assumption.
Qed.

(** The loop over [q] fills row [ind_j] of [U] and of [V], left to right,
    with the statistics of the scale. *)
Lemma statistics_at_fill (ind_j : nat) (nj : Z) (values_j : list F)
    (qs : list F) :
  forall (topU botU topV botV : Np.matrix) (preU restU preV restV : list F),
    length topU = ind_j -> length topV = ind_j ->
    length preV = length preU ->
    length restU = length qs -> length restV = length qs ->
    Py.for_each (combine (seq (length preU) (length qs)) qs)
      (statistics_at ind_j nj (map np_abs values_j))
      (topU ++ (preU ++ restU) :: botU, topV ++ (preV ++ restV) :: botV)
    = Ok (topU ++ (preU ++ map (spec_U nj values_j) qs) :: botU,
          topV ++ (preV ++ map (spec_V values_j) qs) :: botV).
Proof.
  induction qs as [|qq qs IH]; intros topU botU topV botV preU restU preV restV
    HtU HtV Hpre HrU HrV.
  - destruct restU; [|discriminate]. destruct restV; [|discriminate].
    reflexivity.
  - destruct restU as [|u restU]; [discriminate|].
    destruct restV as [|v restV]; [discriminate|].
    simpl in HrU, HrV. injection HrU as HrU. injection HrV as HrV.
    cbn [length seq combine Py.for_each statistics_at].
    rewrite (setitem2_app topV botV preV restV v _ _ _ HtV Hpre).
    cbn [bind].
    rewrite (setitem2_app topU botU preU restU u _ _ _ HtU eq_refl).
    cbn [bind].
    specialize (IH topU botU topV botV (preU ++ [spec_U nj values_j qq]) restU
                  (preV ++ [spec_V values_j qq]) restV HtU HtV).
    rewrite !length_app in IH. simpl in IH.
    replace (length preU + 1)%nat with (S (length preU)) in IH by lia.
    rewrite <- !app_assoc in IH. simpl in IH.
    apply IH; auto; lia.
Qed.

(** The loop over the scales fills [U] and [V] row by row, and stops at the
    first scale whose count or coefficients are missing. *)
Lemma statistics_row_fill (self : MultifractalSpectrum F) (js : list Z) :
  forall (topU restU topV restV : Np.matrix),
    length topV = length topU ->
    length restU = length js -> length restV = length js ->
    Forall (fun row => length row = length (self_q self)) restU ->
    Forall (fun row => length row = length (self_q self)) restV ->
    Py.for_each (combine (seq (length topU) (length js)) js)
      (statistics_row self) (topU ++ restU, topV ++ restV)
    = rows <- Py.map_result (scale_rows (self_mrq self) (self_q self)) js ;;
      Ok (topU ++ map fst rows, topV ++ map snd rows).
Proof.
  induction js as [|j js IH]; intros topU restU topV restV Htop HrU HrV HfU HfV.
  - destruct restU; [|discriminate]. destruct restV; [|discriminate].
    reflexivity.
  - destruct restU as [|u restU]; [discriminate|].
    destruct restV as [|v restV]; [discriminate|].
    simpl in HrU, HrV. injection HrU as HrU. injection HrV as HrV.
    inversion HfU as [|? ? Hu HfU']; subst.
    inversion HfV as [|? ? Hv HfV']; subst.
    cbn [length seq combine Py.for_each Py.map_result statistics_row].
    unfold scale_rows at 1.
    destruct (Py.getitem (mrq_nj (self_mrq self)) j) as [nj|e]; [|reflexivity].
    cbn [bind].
    destruct (Py.getitem (mrq_values (self_mrq self)) j) as [values_j|e];
      [|reflexivity].
    cbn [bind]. unfold Py.enumerate.
    pose proof (statistics_at_fill (length topU) nj values_j (self_q self)
                  topU restU topV restV [] u [] v eq_refl Htop eq_refl Hu Hv)
      as Hfill.
    simpl in Hfill. rewrite Hfill. cbn [bind].
    specialize (IH (topU ++ [map (spec_U nj values_j) (self_q self)]) restU
                  (topV ++ [map (spec_V values_j) (self_q self)]) restV).
    rewrite !length_app in IH. simpl in IH.
    replace (length topU + 1)%nat with (S (length topU)) in IH by lia.
    rewrite <- !app_assoc in IH. simpl in IH.
    rewrite IH; auto; try lia.
    destruct (Py.map_result (scale_rows (self_mrq self) (self_q self)) js)
      as [rows|e]; [|reflexivity].
    cbn [bind map fst snd]. rewrite <- !app_assoc. reflexivity.
Qed.

(** Lines 47-61 as a whole: row [i] of [U] and of [V] holds the statistics
    of scale [self.j[i]] for every order, in the order of [self.q]. *)
Lemma compute_UV_rows (self : MultifractalSpectrum F) :
  compute_UV self
  = rows <- Py.map_result (scale_rows (self_mrq self) (self_q self))
              (self_j self) ;;
    Ok (map fst rows, map snd rows).
Proof.
  unfold compute_UV, Py.enumerate, Np.zeros2.
  apply (statistics_row_fill self (self_j self) [] _ [] _ eq_refl).
  - apply repeat_length.
  - apply repeat_length.
  - apply Forall_forall; intros row Hin; apply repeat_spec in Hin; subst.
    apply repeat_length.
  - apply Forall_forall; intros row Hin; apply repeat_spec in Hin; subst.
    apply repeat_length.
Qed.

End Statistics.

(* ================================================================= *)
(** ** The regression loop (lines 66-89) *)

Section Regressions.
Context {F : Type} `{Numeric F}.
Variable linear_regression : list Z -> list F -> list F -> result (F * F).

Lemma get_nj_loop (d : Py.dict Z) (l : list Z) (acc : list Z) :
  Py.for_each l (fun j nj => n <- Py.getitem d j ;; Ok (nj ++ [n])) acc
  = r <- Py.map_result (Py.getitem d) l ;; Ok (acc ++ r).
Proof.
  revert acc; induction l as [|j l IH]; intros acc; simpl.
  - rewrite app_nil_r; reflexivity.
  - destruct (Py.getitem d j) as [n|e]; simpl; [|reflexivity].
    rewrite IH. destruct (Py.map_result (Py.getitem d) l); simpl;
      [|reflexivity].
    rewrite <- app_assoc; reflexivity.
Qed.

(** [get_nj_interv] returns [nj[j]] for [j] in [j1..j2], in order, and
    raises [KeyError] at the first scale without a count. *)
Lemma get_nj_interv_spec (self : MultifractalSpectrum F) (j1 j2 : Z) :
  get_nj_interv self j1 j2
  = Py.map_result (Py.getitem (mrq_nj (self_mrq self))) (Py.range j1 (j2 + 1)).
Proof.
  unfold get_nj_interv. rewrite get_nj_loop.
  destruct (Py.map_result _ _); reflexivity.
Qed.

Lemma map_result_of_int (d : Py.dict Z) (l : list Z) :
  (nj <- Py.map_result (Py.getitem d) l ;; Ok (map of_int nj))
  = Py.map_result (fun j => n <- Py.getitem d j ;; Ok (of_int n)) l.
Proof.
  induction l as [|j l IH]; simpl; [reflexivity|].
  destruct (Py.getitem d j) as [n|e]; simpl; [|reflexivity].
  rewrite <- IH. destruct (Py.map_result (Py.getitem d) l); reflexivity.
Qed.

(** The weights of lines 72-76 are the weights of the specification. *)
Lemma weights_spec (self : MultifractalSpectrum F) :
  weights self
    (Py.range (WaveletParameters.j1 (self_wt_param self))
              (WaveletParameters.j2 (self_wt_param self) + 1))
  = spec_weights (self_mrq self) (WaveletParameters.wtype (self_wt_param self))
      (Py.range (WaveletParameters.j1 (self_wt_param self))
                (WaveletParameters.j2 (self_wt_param self) + 1)).
Proof.
  unfold weights, spec_weights.
  destruct (WaveletParameters.wtype (self_wt_param self) =? 1).
  - rewrite get_nj_interv_spec. apply map_result_of_int.
  - unfold Np.ones. f_equal.
    induction (Py.range _ _); simpl; congruence.
Qed.

(** The loop over [q] fills [Dq] and [hq], left to right, and stops at the
    first order at which a regression raises. *)
Lemma regression_at_fill (U V : Np.matrix) (j1 j2 : Z) (x : list Z)
    (wj : list F) (qs : list F) :
  forall (preD restD preH restH : list F),
    length preH = length preD ->
    length restD = length qs -> length restH = length qs ->
    Py.for_each (combine (seq (length preD) (length qs)) qs)
      (regression_at linear_regression U V j1 j2 x wj)
      (preD ++ restD, preH ++ restH)
    = pairs <- Py.map_result
                 (regress_column linear_regression U V j1 j2 x wj)
                 (seq (length preD) (length qs)) ;;
      Ok (preD ++ map fst pairs, preH ++ map snd pairs).
Proof.
  induction qs as [|qq qs IH]; intros preD restD preH restH Hpre HrD HrH.
  - destruct restD; [|discriminate]. destruct restH; [|discriminate].
    reflexivity.
  - destruct restD as [|d restD]; [discriminate|].
    destruct restH as [|h restH]; [discriminate|].
    simpl in HrD, HrH. injection HrD as HrD. injection HrH as HrH.
    cbn [length seq combine Py.for_each Py.map_result regression_at].
    unfold regress_column at 1, spec_regress.
    destruct (Np.slice_column U (j1 - 1) j2 (length preD)) as [y|e];
      [|reflexivity]. cbn [bind].
    destruct (Np.slice_column V (j1 - 1) j2 (length preD)) as [z|e];
      [|reflexivity]. cbn [bind].
    destruct (linear_regression x y wj) as [[slope_1 intercept_1]|e];
      [|reflexivity]. cbn [bind].
    destruct (linear_regression x z wj) as [[slope_2 intercept_2]|e];
      [|reflexivity]. cbn [bind].
    rewrite (setitem_app preD restD d (fadd fone slope_1) _ eq_refl).
    cbn [bind].
    rewrite (setitem_app preH restH h slope_2 _ Hpre). cbn [bind].
    specialize (IH (preD ++ [fadd fone slope_1]) restD (preH ++ [slope_2])
                  restH).
    rewrite !length_app in IH. simpl in IH.
    replace (length preD + 1)%nat with (S (length preD)) in IH by lia.
    rewrite <- !app_assoc in IH. simpl in IH.
    rewrite IH; auto; try lia.
    destruct (Py.map_result _ (seq (S (length preD)) (length qs)))
      as [pairs|e]; [|reflexivity].
    cbn [bind map fst snd]. rewrite <- !app_assoc. reflexivity.
Qed.

(** Lines 66-89 as a whole. *)
Lemma compute_Dq_hq_spec (self : MultifractalSpectrum F) (U V : Np.matrix) :
  let wt := self_wt_param self in
  let j1 := WaveletParameters.j1 wt in
  let j2 := WaveletParameters.j2 wt in
  let x := Py.range j1 (j2 + 1) in
  compute_Dq_hq linear_regression self U V
  = wj <- spec_weights (self_mrq self) (WaveletParameters.wtype wt) x ;;
    pairs <- Py.map_result
               (regress_column linear_regression U V j1 j2 x wj)
               (seq 0 (length (self_q self))) ;;
    Ok (map fst pairs, map snd pairs).
Proof.
  cbv zeta. unfold compute_Dq_hq.
  rewrite (weights_spec self).
  destruct (spec_weights _ _ _) as [wj|e]; [|reflexivity]. cbn [bind].
  unfold Py.enumerate, Np.zeros.
  apply (regression_at_fill _ _ _ _ _ wj (self_q self) [] _ [] _ eq_refl);
    apply repeat_length.
Qed.

(** The constructor as a whole: the statistics of every scale, the weights,
    one pair of regressions per order, and the object that holds all four
    arrays. *)
Lemma init_spec (mrq : MultiResolutionQuantity F) (q : list F)
    (j1 j2 wtype : Z) :
  let x := Py.range j1 (j2 + 1) in
  __init__ linear_regression mrq q j1 j2 wtype
  = rows <- Py.map_result (scale_rows mrq q) (Py.keys (mrq_values mrq)) ;;
    wj <- spec_weights mrq wtype x ;;
    pairs <- Py.map_result
               (regress_column linear_regression (map fst rows)
                  (map snd rows) j1 j2 x wj)
               (seq 0 (length q)) ;;
    Ok {| self_mrq := mrq;
          self_j := Py.keys (mrq_values mrq);
          self_q := q;
          self_Dq := Some (map fst pairs);
          self_hq := Some (map snd pairs);
          self_wt_param :=
            {| WaveletParameters.j1 := j1; WaveletParameters.j2 := j2;
               WaveletParameters.wtype := wtype |};
          self_U := Some (map fst rows);
          self_V := Some (map snd rows) |}.
Proof.
  cbv zeta. unfold __init__, _compute.
  rewrite compute_UV_rows. cbn [init_state self_mrq self_q self_j].
  destruct (Py.map_result (scale_rows mrq q) (Py.keys (mrq_values mrq)))
    as [rows|e]; [|reflexivity].
  cbn [bind]. rewrite compute_Dq_hq_spec. unfold init_state.
  cbn [self_mrq self_q self_j self_wt_param WaveletParameters.j1
       WaveletParameters.j2 WaveletParameters.wtype self_Dq self_hq self_U
       self_V].
  destruct (spec_weights mrq wtype _) as [wj|e]; [|reflexivity].
  cbn [bind].
  destruct (Py.map_result _ (seq 0 (length q))) as [pairs|e]; reflexivity.
Qed.

End Regressions.

(* ================================================================= *)
(** ** Ranges, slices and columns *)

Section SliceFacts.
Context {A B : Type}.

Lemma length_range (a b : Z) : length (Py.range a b) = Z.to_nat (b - a).
Proof. unfold Py.range. rewrite length_map, length_seq. reflexivity. Qed.

Lemma nth_error_range (a b : Z) (i : nat) :
  nth_error (Py.range a b) i
  = if (i <? Z.to_nat (b - a))%nat then Some (a + Z.of_nat i) else None.
Proof.
  unfold Py.range. rewrite nth_error_map, nth_error_seq.
  destruct (i <? Z.to_nat (b - a))%nat; reflexivity.
Qed.

Lemma In_range (a b j : Z) : In j (Py.range a b) <-> a <= j < b.
Proof.
  unfold Py.range. rewrite in_map_iff. split.
  - intros [k [<- Hk]]. apply in_seq in Hk. lia.
  - intros Hj. exists (Z.to_nat (j - a)). split; [lia|]. apply in_seq. lia.
Qed.

(** The elements of a slice, by position. *)
Lemma nth_error_slice (start stop : Z) (l : list A) (i : nat) :
  let n := Z.of_nat (length l) in
  let a := Py.slice_index n start in
  let b := Py.slice_index n stop in
  nth_error (Py.slice start stop l) i
  = if (i <? Z.to_nat (b - a))%nat then nth_error l (Z.to_nat a + i)
    else None.
Proof.
  cbv zeta. unfold Py.slice. rewrite nth_error_firstn, nth_error_skipn.
  reflexivity.
Qed.

Lemma slice_index_bounds (n i : Z) :
  0 <= n -> 0 <= Py.slice_index n i <= n.
Proof. unfold Py.slice_index. destruct (i <? 0) eqn:E; lia. Qed.

Lemma In_slice (start stop : Z) (l : list A) (a : A) :
  In a (Py.slice start stop l) -> In a l.
Proof.
  intros Hin. apply In_nth_error in Hin as [i Hi].
  rewrite nth_error_slice in Hi.
  destruct (i <? _)%nat; [|discriminate].
  eapply nth_error_In; eassumption.
Qed.

Lemma slice_map (f : A -> B) (start stop : Z) (l : list A) :
  Py.slice start stop (map f l) = map f (Py.slice start stop l).
Proof.
  unfold Py.slice. rewrite length_map, skipn_map, firstn_map. reflexivity.
Qed.

(** Two sequences of one length that agree between the bounds of a slice
    have the same slice. *)
Lemma slice_ext (start stop : Z) (l l' : list A) :
  length l = length l' ->
  (forall p : nat,
     Py.slice_index (Z.of_nat (length l)) start <= Z.of_nat p
       < Py.slice_index (Z.of_nat (length l)) stop ->
     nth_error l p = nth_error l' p) ->
  Py.slice start stop l = Py.slice start stop l'.
Proof.
  intros Hlen Hagree. apply nth_error_ext. intros i.
  rewrite !nth_error_slice. rewrite <- Hlen.
  destruct (i <? _)%nat eqn:Hi; [|reflexivity].
  apply Nat.ltb_lt in Hi. apply Hagree.
  pose proof (slice_index_bounds (Z.of_nat (length l)) start
                ltac:(lia)). lia.
Qed.

Lemma map_result_firstn (f : A -> result B) (n : nat) (l : list A)
    (r : list B) :
  Py.map_result f l = Ok r -> Py.map_result f (firstn n l) = Ok (firstn n r).
Proof.
  revert l r; induction n as [|n IH]; intros l r Hr; [reflexivity|].
  destruct l as [|a l]; simpl in *.
  - injection Hr as <-; reflexivity.
  - destruct (f a); simpl in *; [|discriminate].
    destruct (Py.map_result f l) eqn:E; simpl in *; [|discriminate].
    injection Hr as <-. simpl. rewrite (IH _ _ E). reflexivity.
Qed.

Lemma map_result_skipn (f : A -> result B) (n : nat) (l : list A)
    (r : list B) :
  Py.map_result f l = Ok r -> Py.map_result f (skipn n l) = Ok (skipn n r).
Proof.
  revert l r; induction n as [|n IH]; intros l r Hr; [assumption|].
  destruct l as [|a l]; simpl in *.
  - injection Hr as <-; reflexivity.
  - destruct (f a); simpl in *; [|discriminate].
    destruct (Py.map_result f l) eqn:E; simpl in *; [|discriminate].
    injection Hr as <-. simpl. apply IH; assumption.
Qed.

(** A comprehension over a slice is the slice of the comprehension. *)
Lemma map_result_slice (f : A -> result B) (start stop : Z) (l : list A)
    (r : list B) :
  Py.map_result f l = Ok r ->
  Py.map_result f (Py.slice start stop l) = Ok (Py.slice start stop r).
Proof.
  intros Hr. unfold Py.slice. rewrite (map_result_ok_length _ _ _ Hr).
  apply map_result_firstn, map_result_skipn, Hr.
Qed.

Lemma map_result_total (f : A -> result B) (l : list A) :
  (forall a, In a l -> exists b, f a = Ok b) ->
  exists r, Py.map_result f l = Ok r.
Proof.
  induction l as [|a l IH]; intros Hf; simpl; [eauto|].
  destruct (Hf a (or_introl eq_refl)) as [b ->].
  destruct IH as [r ->]; [intros; apply Hf; right; assumption|].
  simpl; eauto.
Qed.

(** A comprehension with a failing element raises what its first failing
    element raises. *)
Lemma map_result_fails (f : A -> result B) (l : list A) :
  (exists a, In a l /\ exists e, f a = Raise e) ->
  exists a e, In a l /\ f a = Raise e /\ Py.map_result f l = Raise e.
Proof.
  induction l as [|a l IH]; intros [a0 [Hin [e0 He0]]]; [destruct Hin|].
  simpl. destruct (f a) as [b|e] eqn:Hfa.
  - destruct Hin as [-> | Hin]; [congruence|].
    destruct IH as [a1 [e1 [Hin1 [Hf1 Hm1]]]]; [eauto|].
    exists a1, e1. rewrite Hm1. simpl; auto.
  - exists a, e. simpl; auto.
Qed.

End SliceFacts.

(** The rows [(j1-1):j2] of a sequence indexed by the scales 1..jmax are
    those of the scales j1..j2. *)
Lemma slice_range (j1 j2 jmax : Z) :
  1 <= j1 -> 0 <= j2 <= jmax ->
  Py.slice (j1 - 1) j2 (Py.range 1 (jmax + 1)) = Py.range j1 (j2 + 1).
Proof.
  intros H1 H2. apply nth_error_ext. intros i.
  rewrite nth_error_slice, !nth_error_range, length_range.
  unfold Py.slice_index.
  replace (j1 - 1 <? 0) with false by lia.
  replace (j2 <? 0) with false by lia.
  destruct (i <? Z.to_nat (j2 + 1 - j1))%nat eqn:Hi.
  - apply Nat.ltb_lt in Hi.
    replace (i <? _)%nat with true by (symmetry; apply Nat.ltb_lt; lia).
    replace (_ <? _)%nat with true by (symmetry; apply Nat.ltb_lt; lia).
    f_equal. lia.
  - apply Nat.ltb_ge in Hi.
    replace (i <? _)%nat with false by (symmetry; apply Nat.ltb_ge; lia).
    reflexivity.
Qed.

Lemma lookup_keys {V : Type} (d : Py.dict V) (k : Z) :
  In k (Py.keys d) -> Py.lookup d k <> None.
Proof.
  induction d as [|[k' v] d IH]; simpl; [tauto|].
  intros [-> | Hin].
  - rewrite Z.eqb_refl. discriminate.
  - destruct (k' =? k); [discriminate | auto].
Qed.

Lemma getitem_lookup {V : Type} (d : Py.dict V) (k : Z) (v : V) :
  Py.getitem d k = Ok v <-> Py.lookup d k = Some v.
Proof.
  unfold Py.getitem. destruct (Py.lookup d k); split; congruence.
Qed.

Lemma getitem_raise {V : Type} (d : Py.dict V) (k : Z) (e : exn) :
  Py.getitem d k = Raise e -> e = KeyError k /\ Py.lookup d k = None.
Proof.
  unfold Py.getitem. destruct (Py.lookup d k); [discriminate|].
  intros [= <-]; auto.
Qed.

(* ================================================================= *)
(** ** The statistics by scale *)

Section Rows.
Context {F : Type} `{Numeric F}.

Lemma scale_rows_inv (mrq : MultiResolutionQuantity F) (q : list F) (j : Z)
    (r : list F * list F) :
  scale_rows mrq q j = Ok r ->
  exists nj values_j,
    Py.lookup (mrq_nj mrq) j = Some nj /\
    Py.lookup (mrq_values mrq) j = Some values_j /\
    r = (map (spec_U nj values_j) q, map (spec_V values_j) q).
Proof.
  unfold scale_rows. intros Hr.
  apply bind_ok in Hr as [nj [Hnj Hr]].
  apply bind_ok in Hr as [values_j [Hv Hr]].
  injection Hr as <-. apply getitem_lookup in Hnj, Hv. eauto.
Qed.

Lemma scale_rows_raise (mrq : MultiResolutionQuantity F) (q : list F) (j : Z)
    (e : exn) :
  scale_rows mrq q j = Raise e -> e = KeyError j.
Proof.
  unfold scale_rows. intros Hr.
  apply bind_raise in Hr as [Hr | [nj [_ Hr]]].
  - apply getitem_raise in Hr; tauto.
  - apply bind_raise in Hr as [Hr | [values_j [_ Hr]]]; [|discriminate].
    apply getitem_raise in Hr; tauto.
Qed.

Lemma scale_rows_agree (a b : MultiResolutionQuantity F) (q : list F) (j : Z) :
  agree_at a b j -> scale_rows a q j = scale_rows b q j.
Proof.
  intros [Hnj Hv]. unfold scale_rows, Py.getitem. rewrite Hnj, Hv.
  reflexivity.
Qed.

(** On an MRQ with scales 1..jmax no lookup of the statistics loops fails. *)
Lemma scale_rows_total (mrq : MultiResolutionQuantity F) (q : list F)
    (jmax : Z) :
  scales_are mrq jmax ->
  exists rows,
    Py.map_result (scale_rows mrq q) (Py.keys (mrq_values mrq)) = Ok rows.
Proof.
  intros [Hkeys Hnj]. apply map_result_total. intros j Hj.
  pose proof (lookup_keys _ _ Hj) as Hv.
  rewrite Hkeys in Hj. apply In_range in Hj.
  specialize (Hnj j ltac:(lia)).
  unfold scale_rows, Py.getitem.
  destruct (Py.lookup (mrq_nj mrq) j); [|congruence].
  destruct (Py.lookup (mrq_values mrq) j); [|congruence].
  simpl; eauto.
Qed.

(** Column [k] of the rows of a list of scales is the statistic of order
    [q[k]] at each of the scales. *)
Lemma column_of_rows (mrq : MultiResolutionQuantity F) (q : list F)
    (k : nat) (qq : F) (xs : list Z) :
  nth_error q k = Some qq ->
  forall rs, Py.map_result (scale_rows mrq q) xs = Ok rs ->
    Np.column (map fst rs) k = Py.map_result (scale_U mrq qq) xs /\
    Np.column (map snd rs) k = Py.map_result (scale_V mrq qq) xs.
Proof.
  intros Hq. induction xs as [|j xs IH]; intros rs Hrs; simpl in Hrs.
  - injection Hrs as <-. split; reflexivity.
  - apply bind_ok in Hrs as [r [Hr Hrs]].
    apply bind_ok in Hrs as [rs' [Hrs' Hrs]]. injection Hrs as <-.
    destruct (IH _ Hrs') as [IHU IHV].
    apply scale_rows_inv in Hr as [nj [values_j [Hnj [Hv ->]]]].
    unfold Np.column in *. cbn [map fst snd Py.map_result].
    rewrite !nth_error_map, Hq. cbn [option_map bind].
    rewrite IHU, IHV.
    unfold scale_U, scale_V, Py.getitem. rewrite Hnj, Hv.
    split; reflexivity.
Qed.

Lemma rows_width (mrq : MultiResolutionQuantity F) (q : list F)
    (xs : list Z) (rs : list (list F * list F)) :
  Py.map_result (scale_rows mrq q) xs = Ok rs ->
  forall r, In r rs ->
    length (fst r) = length q /\ length (snd r) = length q.
Proof.
  revert rs; induction xs as [|j xs IH]; intros rs Hrs r Hin; simpl in Hrs.
  - injection Hrs as <-. destruct Hin.
  - apply bind_ok in Hrs as [r0 [Hr Hrs]].
    apply bind_ok in Hrs as [rs' [Hrs' Hrs]]. injection Hrs as <-.
    destruct Hin as [<- | Hin]; [|eauto].
    apply scale_rows_inv in Hr as [nj [values_j [_ [_ ->]]]].
    simpl. rewrite !length_map. auto.
Qed.

(** Indexing a column within the width of the rows does not raise. *)
Lemma column_total (M : list (list F)) (k : nat) :
  (forall row, In row M -> (k < length row)%nat) ->
  exists ys, Np.column M k = Ok ys.
Proof.
  intros Hw. apply map_result_total. intros row Hin.
  destruct (nth_error row k) eqn:E; [eauto|].
  apply nth_error_None in E. specialize (Hw row Hin). lia.
Qed.

Lemma slice_column_total (rs : list (list F * list F)) (q : list F)
    (start stop : Z) (k : nat) :
  (forall r, In r rs ->
     length (fst r) = length q /\ length (snd r) = length q) ->
  (k < length q)%nat ->
  (exists y, Np.slice_column (map fst rs) start stop k = Ok y) /\
  (exists z, Np.slice_column (map snd rs) start stop k = Ok z).
Proof.
  intros Hw Hk. unfold Np.slice_column.
  split; apply column_total; intros row Hin; apply In_slice in Hin;
    apply in_map_iff in Hin as [r [<- Hr]]; destruct (Hw r Hr); lia.
Qed.

End Rows.

(* ================================================================= *)
(** ** Properties of the estimator, for every arithmetic *)

Section Claims.
Context {F : Type} `{Numeric F}.
Variable linear_regression : list Z -> list F -> list F -> result (F * F).

Lemma compute_UV_init (mrq : MultiResolutionQuantity F) (q : list F)
    (j1 j2 wtype : Z) :
  compute_UV (init_state mrq q j1 j2 wtype)
  = rows <- Py.map_result (scale_rows mrq q) (Py.keys (mrq_values mrq)) ;;
    Ok (map fst rows, map snd rows).
Proof. rewrite compute_UV_rows. reflexivity. Qed.

Lemma init_ok_inv (mrq : MultiResolutionQuantity F) (q : list F)
    (j1 j2 wtype : Z) (obj : MultifractalSpectrum F) :
  __init__ linear_regression mrq q j1 j2 wtype = Ok obj ->
  exists rows wj pairs,
    Py.map_result (scale_rows mrq q) (Py.keys (mrq_values mrq)) = Ok rows /\
    spec_weights mrq wtype (Py.range j1 (j2 + 1)) = Ok wj /\
    Py.map_result
      (regress_column linear_regression (map fst rows) (map snd rows) j1 j2
         (Py.range j1 (j2 + 1)) wj)
      (seq 0 (length q)) = Ok pairs /\
    self_U obj = Some (map fst rows) /\ self_V obj = Some (map snd rows) /\
    self_Dq obj = Some (map fst pairs) /\ self_hq obj = Some (map snd pairs).
Proof.
  rewrite init_spec. cbv zeta. intros Hobj.
  apply bind_ok in Hobj as [rows [Hrows Hobj]].
  apply bind_ok in Hobj as [wj [Hwj Hobj]].
  apply bind_ok in Hobj as [pairs [Hpairs Hobj]].
  injection Hobj as <-. exists rows, wj, pairs. simpl. auto 10.
Qed.

(** C1.  For every scale [j] of the MRQ (row [ind_j]) and every moment
    order [qq] of the sequence (column [ind_q]), with m = |values[j]| and
    R = m^qq / sum(m^qq), the matrices computed by lines 47-61 hold
    V[ind_j, ind_q] = sum(R * log2(m)) and
    U[ind_j, ind_q] = log2(nj[j]) + sum(R * log2(R)). *)
Theorem C1_statistics_formula (mrq : MultiResolutionQuantity F) (q : list F)
    (j1 j2 wtype : Z) (U V : list (list F)) :
  compute_UV (init_state mrq q j1 j2 wtype) = Ok (U, V) ->
  forall (ind_j : nat) (j : Z) (ind_q : nat) (qq : F),
    nth_error (Py.keys (mrq_values mrq)) ind_j = Some j ->
    nth_error q ind_q = Some qq ->
    exists (nj : Z) (values_j : list F),
      Py.lookup (mrq_nj mrq) j = Some nj /\
      Py.lookup (mrq_values mrq) j = Some values_j /\
      let m := map np_abs values_j in
      let w := map (fun x => np_power x qq) m in
      let R := map (fun t => fdiv t (np_sum w)) w in
      Np.getitem2 V ind_j ind_q
      = Some (np_sum (Np.mul_arrays R (map np_log2 m))) /\
      Np.getitem2 U ind_j ind_q
      = Some (fadd (np_log2 (of_int nj))
                   (np_sum (Np.mul_arrays R (map np_log2 R)))).
Proof.
  rewrite compute_UV_init. intros HUV ind_j j ind_q qq Hj Hq.
  apply bind_ok in HUV as [rows [Hrows HUV]]. injection HUV as <- <-.
  destruct (map_result_nth _ _ _ _ _ Hrows Hj) as [r [Hr Hnth]].
  apply scale_rows_inv in Hr as [nj [values_j [Hnj [Hv ->]]]].
  exists nj, values_j. split; [assumption|]. split; [assumption|].
  cbv zeta. unfold Np.getitem2.
  rewrite !nth_error_map, Hnth. cbn [option_map fst snd].
  rewrite !nth_error_map, Hq. split; reflexivity.
Qed.

(** The rows [(j1-1):j2] of [U] and [V], column [ind_q], are the statistics
    of order [q[ind_q]] at the scales j1..j2, when the scales of the MRQ are
    1..jmax and the window lies within them. *)
Lemma window_columns (mrq : MultiResolutionQuantity F) (q : list F)
    (j1 j2 jmax : Z) (rows : list (list F * list F)) (ind_q : nat) (qq : F) :
  Py.keys (mrq_values mrq) = Py.range 1 (jmax + 1) ->
  1 <= j1 -> 0 <= j2 <= jmax ->
  Py.map_result (scale_rows mrq q) (Py.keys (mrq_values mrq)) = Ok rows ->
  nth_error q ind_q = Some qq ->
  Np.slice_column (map fst rows) (j1 - 1) j2 ind_q
  = Py.map_result (scale_U mrq qq) (Py.range j1 (j2 + 1)) /\
  Np.slice_column (map snd rows) (j1 - 1) j2 ind_q
  = Py.map_result (scale_V mrq qq) (Py.range j1 (j2 + 1)).
Proof.
  intros Hkeys H1 H2 Hrows Hq. unfold Np.slice_column.
  rewrite !slice_map.
  apply (map_result_slice _ (j1 - 1) j2) in Hrows.
  rewrite Hkeys, slice_range in Hrows by assumption.
  exact (column_of_rows mrq q ind_q qq _ Hq _ Hrows).
Qed.

(** C2.  For an MRQ whose scales are exactly 1..jmax, in this order (row
    j - 1 of U and V is then scale j), and a window 1 <= j1 <= j2 <= jmax,
    with x = j1, ..., j2 and wj all ones when wtype is ordinary and
    wj[k] = nj[x[k]] when wtype is weighted-by-count: for every moment order
    q[ind_q], in the order given, Dq[ind_q] is 1 plus the slope of the
    regression of U[j1..j2, q] against x with weights wj, and hq[ind_q] is
    the slope of the regression of V[j1..j2, q] against x with weights wj;
    the intercepts appear nowhere in the outputs. *)
Theorem C2_regression_outputs (mrq : MultiResolutionQuantity F) (q : list F)
    (j1 j2 wtype jmax : Z) (obj : MultifractalSpectrum F) :
  scales_are mrq jmax -> 1 <= j1 -> j1 <= j2 -> j2 <= jmax ->
  __init__ linear_regression mrq q j1 j2 wtype = Ok obj ->
  let x := Py.range j1 (j2 + 1) in
  exists (wj Dq hq : list F),
    spec_weights mrq wtype x = Ok wj /\
    self_Dq obj = Some Dq /\ self_hq obj = Some hq /\
    forall (ind_q : nat) (qq : F),
      nth_error q ind_q = Some qq ->
      exists (y z : list F) (slope_D intercept_D slope_h intercept_h : F),
        Py.map_result (scale_U mrq qq) x = Ok y /\
        Py.map_result (scale_V mrq qq) x = Ok z /\
        linear_regression x y wj = Ok (slope_D, intercept_D) /\
        linear_regression x z wj = Ok (slope_h, intercept_h) /\
        nth_error Dq ind_q = Some (fadd fone slope_D) /\
        nth_error hq ind_q = Some slope_h.
Proof.
  intros [Hkeys _] H1 H12 H2 Hobj x. subst x.
  apply init_ok_inv in Hobj
    as [rows [wj [pairs [Hrows [Hwj [Hpairs [_ [_ [HDq Hhq]]]]]]]]].
  exists wj, (map fst pairs), (map snd pairs).
  split; [assumption|]. split; [assumption|]. split; [assumption|].
  intros ind_q qq Hq.
  assert (Hseq : nth_error (seq 0 (length q)) ind_q = Some ind_q).
  { rewrite nth_error_seq.
    assert (ind_q < length q)%nat by (apply nth_error_Some; congruence).
    replace (ind_q <? length q)%nat with true
      by (symmetry; apply Nat.ltb_lt; assumption).
    reflexivity. }
  destruct (map_result_nth _ _ _ _ _ Hpairs Hseq) as [p [Hp Hnth]].
  unfold regress_column in Hp.
  destruct (window_columns mrq q j1 j2 jmax rows ind_q qq Hkeys H1
              ltac:(lia) Hrows Hq) as [HU HV].
  apply bind_ok in Hp as [y [Hy Hp]]. apply bind_ok in Hp as [z [Hz Hp]].
  unfold spec_regress in Hp.
  apply bind_ok in Hp as [[slope_D intercept_D] [HD Hp]].
  apply bind_ok in Hp as [[slope_h intercept_h] [Hh Hp]].
  injection Hp as <-.
  exists y, z, slope_D, intercept_D, slope_h, intercept_h.
  rewrite <- HU, <- HV, !nth_error_map, Hnth. auto 10.
Qed.


(** C9, as the code has it.  After a successful construction the object
    holds, besides [hq] and [Dq], the two matrices of statistics: [self.U]
    and [self.V] are the matrices that lines 47-61 computed, once, for this
    call. *)
Theorem C9_statistics_are_retained (mrq : MultiResolutionQuantity F)
    (q : list F) (j1 j2 wtype : Z) (obj : MultifractalSpectrum F) :
  __init__ linear_regression mrq q j1 j2 wtype = Ok obj ->
  exists (U V : list (list F)) (Dq hq : list F),
    compute_UV (init_state mrq q j1 j2 wtype) = Ok (U, V) /\
    self_U obj = Some U /\ self_V obj = Some V /\
    length U = length (Py.keys (mrq_values mrq)) /\
    length V = length (Py.keys (mrq_values mrq)) /\
    self_hq obj = Some hq /\ self_Dq obj = Some Dq.
Proof.
  intros Hobj.
  apply init_ok_inv in Hobj
    as [rows [wj [pairs [Hrows [Hwj [Hpairs [HU [HV [HDq Hhq]]]]]]]]].
  exists (map fst rows), (map snd rows), (map fst pairs), (map snd pairs).
  rewrite compute_UV_init, Hrows, !length_map.
  rewrite (map_result_ok_length _ _ _ Hrows). simpl. auto 10.
Qed.

Lemma spec_weights_agree (a b : MultiResolutionQuantity F) (wtype j1 j2 : Z) :
  (forall j, j1 <= j <= j2 -> agree_at a b j) ->
  spec_weights a wtype (Py.range j1 (j2 + 1))
  = spec_weights b wtype (Py.range j1 (j2 + 1)).
Proof.
  intros Hagree. unfold spec_weights.
  destruct (wtype =? 1); [|reflexivity].
  apply map_result_ext. intros j Hj. apply In_range in Hj.
  destruct (Hagree j ltac:(lia)) as [Hnj _].
  unfold Py.getitem. rewrite Hnj. reflexivity.
Qed.

(** With [j2 >= 0] the rows [(j1-1):j2] are rows of scales of the window,
    so two MRQs that agree on the window have the same rows there. *)
Lemma window_rows_agree (a b : MultiResolutionQuantity F) (q : list F)
    (j1 j2 jmax : Z) (rows_a rows_b : list (list F * list F)) :
  Py.keys (mrq_values a) = Py.range 1 (jmax + 1) ->
  Py.keys (mrq_values b) = Py.range 1 (jmax + 1) ->
  0 <= j2 ->
  (forall j, j1 <= j <= j2 -> agree_at a b j) ->
  Py.map_result (scale_rows a q) (Py.keys (mrq_values a)) = Ok rows_a ->
  Py.map_result (scale_rows b q) (Py.keys (mrq_values b)) = Ok rows_b ->
  Py.slice (j1 - 1) j2 rows_a = Py.slice (j1 - 1) j2 rows_b.
Proof.
  intros Ha Hb H2 Hagree Hrows_a Hrows_b.
  pose proof (map_result_ok_length _ _ _ Hrows_a) as Hla.
  pose proof (map_result_ok_length _ _ _ Hrows_b) as Hlb.
  rewrite Ha in Hla, Hrows_a. rewrite Hb in Hlb, Hrows_b.
  rewrite length_range in Hla, Hlb.
  apply slice_ext; [congruence|]. intros p Hp.
  destruct (nth_error (Py.range 1 (jmax + 1)) p) as [j|] eqn:Hj.
  - destruct (map_result_nth _ _ _ _ _ Hrows_a Hj) as [ra [Hra Hna]].
    destruct (map_result_nth _ _ _ _ _ Hrows_b Hj) as [rb [Hrb Hnb]].
    rewrite Hna, Hnb. f_equal.
    rewrite nth_error_range in Hj.
    destruct (p <? _)%nat; [|discriminate].
    assert (Hje : 1 + Z.of_nat p = j) by congruence.
    assert (Hw : j1 <= j <= j2).
    { rewrite Hla in Hp. unfold Py.slice_index in Hp.
      destruct (j1 - 1 <? 0) eqn:E1; destruct (j2 <? 0) eqn:E2; lia. }
    rewrite (scale_rows_agree a b q _ (Hagree _ Hw)) in Hra. congruence.
  - apply nth_error_None in Hj. rewrite length_range in Hj.
    assert (length rows_a <= p)%nat by lia.
    assert (length rows_b <= p)%nat by lia.
    rewrite (proj2 (nth_error_None rows_a p)) by assumption.
    rewrite (proj2 (nth_error_None rows_b p)) by assumption.
    reflexivity.
Qed.

(** C10, as the code has it.  Two MRQs with scales 1..jmax that agree, at
    every scale of [j1, j2], on the count and on the coefficients give the
    same (hq, Dq) for the same q, j1, j2 and wtype, provided [j2 >= 0]: the
    statistics are computed for every scale of each MRQ (as many rows as
    scales), and the rows outside the window do not reach the outputs. *)
Theorem C10_window_noninterference (a b : MultiResolutionQuantity F)
    (q : list F) (j1 j2 wtype jmax : Z) :
  scales_are a jmax -> scales_are b jmax ->
  0 <= j2 ->
  (forall j, j1 <= j <= j2 -> agree_at a b j) ->
  spectrum (__init__ linear_regression a q j1 j2 wtype)
  = spectrum (__init__ linear_regression b q j1 j2 wtype) /\
  exists (Ua Va Ub Vb : list (list F)),
    compute_UV (init_state a q j1 j2 wtype) = Ok (Ua, Va) /\
    compute_UV (init_state b q j1 j2 wtype) = Ok (Ub, Vb) /\
    length Ua = Z.to_nat jmax /\ length Va = Z.to_nat jmax /\
    length Ub = Z.to_nat jmax /\ length Vb = Z.to_nat jmax.
Proof.
  intros Hsa Hsb H2 Hagree.
  destruct (scale_rows_total a q jmax Hsa) as [rows_a Hrows_a].
  destruct (scale_rows_total b q jmax Hsb) as [rows_b Hrows_b].
  destruct Hsa as [Ha _]. destruct Hsb as [Hb _].
  pose proof (window_rows_agree a b q j1 j2 jmax rows_a rows_b Ha Hb H2
                Hagree Hrows_a Hrows_b) as Hslice.
  split.
  - rewrite !init_spec. cbv zeta. rewrite Hrows_a, Hrows_b. cbn [bind].
    rewrite (spec_weights_agree a b wtype j1 j2 Hagree).
    destruct (spec_weights b wtype _) as [wj|e]; [|reflexivity]. cbn [bind].
    assert (Hcols : forall k,
              regress_column linear_regression (map fst rows_a)
                (map snd rows_a) j1 j2 (Py.range j1 (j2 + 1)) wj k
              = regress_column linear_regression (map fst rows_b)
                  (map snd rows_b) j1 j2 (Py.range j1 (j2 + 1)) wj k).
    { intros k. unfold regress_column, Np.slice_column.
      rewrite !slice_map, Hslice. reflexivity. }
    rewrite (map_result_ext _ _ _ (fun k _ => Hcols k)).
    destruct (Py.map_result _ (seq 0 (length q))); reflexivity.
  - exists (map fst rows_a), (map snd rows_a), (map fst rows_b),
      (map snd rows_b).
    rewrite !compute_UV_init, Hrows_a, Hrows_b, !length_map.
    rewrite (map_result_ok_length _ _ _ Hrows_a).
    rewrite (map_result_ok_length _ _ _ Hrows_b).
    rewrite Ha, Hb, length_range.
    replace (jmax + 1 - 1) with jmax by lia. auto 10.
Qed.

(** Every failure of the constructor is a [KeyError] or a failure of the
    regression routine. *)
Lemma init_raise_inv (mrq : MultiResolutionQuantity F) (q : list F)
    (j1 j2 wtype : Z) (e : exn) :
  __init__ linear_regression mrq q j1 j2 wtype = Raise e ->
  (exists k, e = KeyError k) \/
  (exists x y w, linear_regression x y w = Raise e).
Proof.
  rewrite init_spec. cbv zeta. intros Hr.
  apply bind_raise in Hr as [Hr | [rows [Hrows Hr]]].
  { apply map_result_raise in Hr as [j [_ Hr]].
    apply scale_rows_raise in Hr. eauto. }
  apply bind_raise in Hr as [Hr | [wj [Hwj Hr]]].
  { unfold spec_weights in Hr. destruct (wtype =? 1); [|discriminate].
    apply map_result_raise in Hr as [j [_ Hr]].
    apply bind_raise in Hr as [Hr | [n [_ Hr]]]; [|discriminate].
    apply getitem_raise in Hr as [-> _]. eauto. }
  apply bind_raise in Hr as [Hr | [pairs [_ Hr]]]; [|discriminate].
  apply map_result_raise in Hr as [k [Hk Hr]].
  apply in_seq in Hk.
  destruct (slice_column_total rows q (j1 - 1) j2 k
              (rows_width mrq q _ rows Hrows) ltac:(lia))
    as [[y Hy] [z Hz]].
  unfold regress_column in Hr. rewrite Hy, Hz in Hr. cbn [bind] in Hr.
  unfold spec_regress in Hr.
  apply bind_raise in Hr as [Hr | [[slope_D intercept_D] [_ Hr]]]; [eauto 6|].
  apply bind_raise in Hr as [Hr | [[slope_h intercept_h] [_ Hr]]]; [eauto 6|].
  discriminate.
Qed.

(** C3, as the code has it.  The constructor does not validate [j1] and
    [j2] and has no error of its own for them: the only errors of a
    construction are a [KeyError] and the errors of the regression routine.
    For an MRQ with scales 1..jmax in weighted-by-count mode, a window
    j1..j2 that contains a scale without a count in [mrq.nj] (a scale outside
    1..jmax is one, unless [mrq.nj] has more keys than [mrq.values]) makes the
    construction fail with the [KeyError] of such a scale; no object is
    returned. *)
Theorem C3_no_range_validation (mrq : MultiResolutionQuantity F)
    (q : list F) (j1 j2 wtype : Z) :
  (forall e : exn,
     __init__ linear_regression mrq q j1 j2 wtype = Raise e ->
     (exists k, e = KeyError k) \/
     (exists x y w, linear_regression x y w = Raise e)) /\
  (forall jmax : Z,
     scales_are mrq jmax -> wtype = 1 ->
     (exists j, j1 <= j <= j2 /\ Py.lookup (mrq_nj mrq) j = None) ->
     exists k, j1 <= k <= j2 /\ Py.lookup (mrq_nj mrq) k = None /\
       __init__ linear_regression mrq q j1 j2 wtype = Raise (KeyError k)).
Proof.
  split; [intros e; apply init_raise_inv|].
  intros jmax Hs -> [j [Hj Hnone]].
  destruct (scale_rows_total mrq q jmax Hs) as [rows Hrows].
  rewrite init_spec. cbv zeta. rewrite Hrows. cbn [bind].
  unfold spec_weights. rewrite Z.eqb_refl.
  destruct (map_result_fails
              (fun j => n <- Py.getitem (mrq_nj mrq) j ;; Ok (of_int n))
              (Py.range j1 (j2 + 1)))
    as [k [e [Hk [Hf Hm]]]].
  { exists j. split; [apply In_range; lia|].
    exists (KeyError j). unfold Py.getitem. rewrite Hnone. reflexivity. }
  apply In_range in Hk.
  apply bind_raise in Hf as [Hf | [n [_ Hf]]]; [|discriminate].
  apply getitem_raise in Hf as [-> Hf].
  exists k. rewrite Hm. cbn [bind]. split; [lia|]. split; [assumption|].
  reflexivity.
Qed.

(** C5, as the code has it.  The constructor does not check that [q] is
    non-empty and has no error for it.  With an empty [q] no regression
    runs: the construction can only fail with a [KeyError]; when it succeeds
    [hq] and [Dq] are empty; and it does succeed on an MRQ with scales
    1..jmax, provided in weighted-by-count mode every scale of j1..j2 has a
    count. *)
Theorem C5_empty_q_is_accepted (mrq : MultiResolutionQuantity F)
    (j1 j2 wtype : Z) :
  (forall e : exn,
     __init__ linear_regression mrq [] j1 j2 wtype = Raise e ->
     exists k, e = KeyError k) /\
  (forall obj : MultifractalSpectrum F,
     __init__ linear_regression mrq [] j1 j2 wtype = Ok obj ->
     self_hq obj = Some [] /\ self_Dq obj = Some []) /\
  (forall jmax : Z,
     scales_are mrq jmax ->
     (wtype = 1 ->
      forall j, j1 <= j <= j2 -> Py.lookup (mrq_nj mrq) j <> None) ->
     exists obj, __init__ linear_regression mrq [] j1 j2 wtype = Ok obj).
Proof.
  split; [|split].
  - intros e. rewrite init_spec. cbv zeta. cbn [length seq Py.map_result].
    intros Hr.
    apply bind_raise in Hr as [Hr | [rows [Hrows Hr]]].
    { apply map_result_raise in Hr as [j [_ Hr]].
      apply scale_rows_raise in Hr. eauto. }
    apply bind_raise in Hr as [Hr | [wj [Hwj Hr]]]; [|discriminate].
    unfold spec_weights in Hr. destruct (wtype =? 1); [|discriminate].
    apply map_result_raise in Hr as [j [_ Hr]].
    apply bind_raise in Hr as [Hr | [n [_ Hr]]]; [|discriminate].
    apply getitem_raise in Hr as [-> _]. eauto.
  - intros obj Hobj.
    apply init_ok_inv in Hobj
      as [rows [wj [pairs [_ [_ [Hpairs [_ [_ [HDq Hhq]]]]]]]]].
    simpl in Hpairs. injection Hpairs as <-. auto.
  - intros jmax Hs Hw.
    destruct (scale_rows_total mrq [] jmax Hs) as [rows Hrows].
    rewrite init_spec. cbv zeta. rewrite Hrows. cbn [bind].
    assert (Hwj : exists wj,
              spec_weights mrq wtype (Py.range j1 (j2 + 1)) = Ok wj).
    { unfold spec_weights. destruct (wtype =? 1) eqn:E; [|eauto].
      apply Z.eqb_eq in E. apply map_result_total. intros j Hj.
      apply In_range in Hj. specialize (Hw E j ltac:(lia)).
      unfold Py.getitem. destruct (Py.lookup (mrq_nj mrq) j); [|congruence].
      simpl; eauto. }
    destruct Hwj as [wj ->]. simpl. eauto.
Qed.

End Claims.

Lemma C1_statistics_formula_witness :
  exists (nj : Z) (values_j : list R),
    Py.lookup (mrq_nj Sample.mrq3) 2 = Some nj /\
    Py.lookup (mrq_values Sample.mrq3) 2 = Some values_j /\
    exists U V : list (list R),
      compute_UV (init_state Sample.mrq3 [0%R; 2%R] 1 3 0) = Ok (U, V) /\
      Np.getitem2 V 1 1
      = Some (np_sum (Np.mul_arrays (spec_R (map np_abs values_j) 2%R)
                                    (map np_log2 (map np_abs values_j)))).
Proof.
  destruct (compute_UV (init_state Sample.mrq3 [0%R; 2%R] 1 3 0))
    as [[U V]|e] eqn:HUV; [|discriminate HUV].
  destruct (C1_statistics_formula Sample.mrq3 [0%R; 2%R] 1 3 0 U V HUV
              1%nat 2 1%nat 2%R eq_refl eq_refl)
    as [nj [values_j [Hnj [Hv [HV HU]]]]].
  exists nj, values_j. split; [exact Hnj|]. split; [exact Hv|].
  exists U, V. split; [reflexivity|]. exact HV.
Defined.

(* ================================================================= *)
(** ** Properties that rest on exact arithmetic *)

Section ExactArithmetic.
Local Open Scope R_scope.

Lemma ln2_pos : 0 < ln 2.
Proof. pose proof ln_lt_2. lra. Qed.

Lemma power_0 (m : R) : RealArith.power m 0 = 1.
Proof. unfold RealArith.power. destruct (Req_dec_T 0 0); congruence. Qed.

Lemma sum_const {A : Type} (c : R) (l : list A) :
  RealArith.sum (map (fun _ => c) l) = INR (length l) * c.
Proof.
  induction l as [|a l IH]; [simpl; lra|].
  cbn [map RealArith.sum fold_right length].
  fold (RealArith.sum (map (fun _ => c) l)). rewrite IH, S_INR. lra.
Qed.

(** At order 0 every entry of R is one value, r = 1 / (the sum of n ones),
    whatever the coefficients, and U is [uniform_U]. *)
Lemma map_const_repeat {A B : Type} (c : B) (l : list A) :
  map (fun _ => c) l = repeat c (length l).
Proof. induction l as [|a l IH]; [reflexivity|]. simpl. rewrite IH. reflexivity. Qed.

Lemma mul_arrays_repeat {F : Type} `{Numeric F} (c d : F) (n : nat) :
  Np.mul_arrays (repeat c n) (repeat d n) = repeat (fmul c d) n.
Proof.
  unfold Np.mul_arrays. induction n as [|n IH]; [reflexivity|].
  cbn [repeat combine map fst snd]. rewrite IH. reflexivity.
Qed.

Lemma spec_U_uniform {F : Type} `{Numeric F} (nj : Z) (values_j : list F) :
  (forall m : F, np_power m fzero = fone) ->
  nj = Z.of_nat (length values_j) ->
  spec_U nj values_j fzero = uniform_U nj.
Proof.
  intros Hpow ->. unfold spec_U, spec_R, uniform_U. cbv zeta.
  rewrite Nat2Z.id.
  assert (Hw : map (fun x => np_power x fzero) (map np_abs values_j)
               = repeat fone (length values_j)).
  { rewrite map_map, <- map_const_repeat. apply map_ext. intros v.
    apply Hpow. }
  rewrite Hw, !map_repeat, mul_arrays_repeat. reflexivity.
Qed.

Lemma sum_repeat (c : R) (n : nat) :
  RealArith.sum (repeat c n) = INR n * c.
Proof.
  induction n as [|n IH]; [simpl; lra|].
  cbn [repeat RealArith.sum fold_right].
  fold (RealArith.sum (repeat c n)). rewrite IH, S_INR. lra.
Qed.

(** In exact arithmetic the entropy term of the uniform weighting cancels
    the log-count. *)
Lemma uniform_U_exact (nj : Z) :
  (0 < nj)%Z -> @uniform_U R RealArith.numeric nj = 0.
Proof.
  intros Hpos. unfold uniform_U. cbv zeta.
  cbn [np_sum np_log2 fadd fmul fdiv fone of_int RealArith.numeric].
  rewrite !sum_repeat, Rmult_1_r.
  assert (Hn : INR (Z.to_nat nj) = IZR nj)
    by (rewrite INR_IZR_INZ, Z2Nat.id by lia; reflexivity).
  rewrite Hn.
  assert (Hnj : 0 < IZR nj) by (apply IZR_lt; assumption).
  unfold RealArith.log2.
  replace (1 / IZR nj) with (/ IZR nj) by (field; lra).
  rewrite ln_Rinv by assumption.
  pose proof ln2_pos. field. split; lra.
Qed.

(** C6.  For every valid MRQ, whatever the other orders of [q] and the
    window, and for every arithmetic in which every magnitude to the power
    0 is 1 (as [np.power] has it): where the order 0 is requested, at
    column [ind_q], the entry of [U] at every scale [j] (row [ind_j]) is
    the value [uniform_U] of the count [nj[j]], that is
    log2(nj) + (the sum of nj copies of r * log2(r)) with
    r = 1 / (the sum of nj ones); the coefficients do not occur in it.  In
    exact arithmetic this value is 0 for every positive count. *)
Theorem C6_U_at_order_zero_is_the_uniform_value :
  (forall (F : Type) (N : Numeric F) (mrq : MultiResolutionQuantity F)
          (jmax : Z) (q : list F) (j1 j2 wtype : Z),
      (forall m : F, np_power m fzero = fone) ->
      valid_mrq mrq jmax ->
      exists U V : list (list F),
        compute_UV (init_state mrq q j1 j2 wtype) = Ok (U, V) /\
        length U = length (Py.keys (mrq_values mrq)) /\
        forall (ind_j : nat) (j : Z) (ind_q : nat),
          nth_error (Py.keys (mrq_values mrq)) ind_j = Some j ->
          nth_error q ind_q = Some fzero ->
          exists nj : Z,
            Py.lookup (mrq_nj mrq) j = Some nj /\
            Np.getitem2 U ind_j ind_q = Some (uniform_U nj)) /\
  (forall nj : Z, (0 < nj)%Z -> @uniform_U R RealArith.numeric nj = 0).
Proof.
  split; [|exact uniform_U_exact].
  intros F N mrq jmax q j1 j2 wtype Hpow [Hs Hvalid].
  destruct (scale_rows_total mrq q jmax Hs) as [rows Hrows].
  exists (map fst rows), (map snd rows).
  rewrite compute_UV_init, Hrows, length_map.
  rewrite (map_result_ok_length _ _ _ Hrows).
  split; [reflexivity|]. split; [reflexivity|].
  intros ind_j j ind_q Hj Hq.
  destruct (map_result_nth _ _ _ _ _ Hrows Hj) as [r [Hr Hnth]].
  apply scale_rows_inv in Hr as [nj [values_j [Hnj [Hv ->]]]].
  destruct (Hvalid j nj values_j Hnj Hv) as [Hpos Hcount].
  exists nj. split; [assumption|].
  unfold Np.getitem2. rewrite nth_error_map, Hnth. cbn [option_map fst].
  rewrite nth_error_map, Hq. cbn [option_map].
  rewrite (spec_U_uniform nj values_j Hpow Hcount). reflexivity.
Qed.

(** Constant weights factor out of every weighted sum. *)
Lemma dot_const (c : R) (x : list Z) (v : list R) :
  Utils.dot (map (fun _ => c) x) v
  = c * Utils.dot (map (fun _ => 1) x) v.
Proof.
  unfold Utils.dot. revert v; induction x as [|a x IH]; intros v.
  - simpl. lra.
  - destruct v as [|b v]; [simpl; lra|].
    cbn [map combine RealArith.sum fold_right fst snd].
    fold (RealArith.sum (map (fun p : R * R => fst p * snd p)
                           (combine (map (fun _ => c) x) v))).
    fold (RealArith.sum (map (fun p : R * R => fst p * snd p)
                           (combine (map (fun _ => 1) x) v))).
    rewrite IH. lra.
Qed.

Lemma scale_quotient (c N D : R) :
  c <> 0 -> c * c * N / (c * c * D) = N / D.
Proof.
  intros Hc. destruct (Req_dec_T D 0) as [-> | HD].
  - rewrite Rmult_0_r, !Rdiv_0_r. reflexivity.
  - field. split; assumption.
Qed.

(** The regression does not change when all weights are one non-zero
    constant instead of all ones. *)
Lemma linear_regression_const_weights (c : R) (x : list Z) (y : list R) :
  c <> 0 ->
  Utils.linear_regression x y (map (fun _ => c) x)
  = Utils.linear_regression x y (map (fun _ => 1) x).
Proof.
  intros Hc. unfold Utils.linear_regression.
  destruct (length (nodup Z.eq_dec x) <? 2)%nat; [reflexivity|].
  rewrite !length_map.
  destruct (negb _); [reflexivity|].
  cbv zeta. rewrite !(dot_const c), (sum_const c), (sum_const 1).
  set (n := INR (length x)).
  set (S1 := Utils.dot (map (fun _ => 1) x) (map IZR x)).
  set (S2 := Utils.dot (map (fun _ => 1) x) (map (fun t => t * t) (map IZR x))).
  set (Sy := Utils.dot (map (fun _ => 1) x) y).
  set (Sxy := Utils.dot (map (fun _ => 1) x)
                (map (fun p => fst p * snd p) (combine (map IZR x) y))).
  f_equal. f_equal.
  - replace (n * c * (c * Sxy) - c * S1 * (c * Sy))
      with (c * c * (n * 1 * Sxy - S1 * Sy)) by ring.
    replace (n * c * (c * S2) - c * S1 * (c * S1))
      with (c * c * (n * 1 * S2 - S1 * S1)) by ring.
    apply scale_quotient; assumption.
  - replace (c * S2 * (c * Sy) - c * S1 * (c * Sxy))
      with (c * c * (S2 * Sy - S1 * Sxy)) by ring.
    replace (n * c * (c * S2) - c * S1 * (c * S1))
      with (c * c * (n * 1 * S2 - S1 * S1)) by ring.
    apply scale_quotient; assumption.
Qed.

(** C7.  When [nj] is one positive count [c] at every scale of the window,
    the construction with ordinary weights (any [wtype] other than 1, as 0)
    and the construction with weights by count ([wtype = 1]) give the same
    (hq, Dq), all other inputs equal.  The regression is the weighted least
    squares of the specification, in exact arithmetic. *)
Theorem C7_constant_count_same_spectrum (mrq : MultiResolutionQuantity R)
    (q : list R) (j1 j2 ordinary c : Z) :
  ordinary <> 1%Z -> (0 < c)%Z ->
  (forall j, (j1 <= j <= j2)%Z -> Py.lookup (mrq_nj mrq) j = Some c) ->
  spectrum (__init__ Utils.linear_regression mrq q j1 j2 ordinary)
  = spectrum (__init__ Utils.linear_regression mrq q j1 j2 1).
Proof.
  intros Hord Hc Hnj. rewrite !init_spec. cbv zeta.
  destruct (Py.map_result (scale_rows mrq q) (Py.keys (mrq_values mrq)))
    as [rows|e]; [|reflexivity].
  cbn [bind]. unfold spec_weights.
  replace (ordinary =? 1)%Z with false by (symmetry; apply Z.eqb_neq; exact Hord).
  rewrite Z.eqb_refl.
  rewrite (map_result_all_ok _ (fun _ => IZR c)).
  2:{ intros j Hj. apply In_range in Hj.
      unfold Py.getitem. rewrite (Hnj j) by lia. reflexivity. }
  cbn [bind fone RealArith.numeric].
  rewrite (map_result_ext
             (regress_column Utils.linear_regression (map fst rows)
                (map snd rows) j1 j2 (Py.range j1 (j2 + 1))
                (map (fun _ => IZR c) (Py.range j1 (j2 + 1))))
             (regress_column Utils.linear_regression (map fst rows)
                (map snd rows) j1 j2 (Py.range j1 (j2 + 1))
                (map (fun _ => 1) (Py.range j1 (j2 + 1))))).
  2:{ intros k _. unfold regress_column, spec_regress.
      destruct (Np.slice_column (map fst rows) (j1 - 1) j2 k) as [y|];
        [|reflexivity].
      destruct (Np.slice_column (map snd rows) (j1 - 1) j2 k) as [z|];
        [|reflexivity].
      cbn [bind].
      assert (HcR : IZR c <> 0) by (apply not_0_IZR; lia).
      rewrite !(linear_regression_const_weights (IZR c)) by assumption.
      reflexivity. }
  destruct (Py.map_result _ (seq 0 (length q))); reflexivity.
Qed.

Lemma range_single (j : Z) : Py.range j (j + 1) = [j].
Proof.
  unfold Py.range. replace (j + 1 - j)%Z with 1%Z by lia.
  simpl. f_equal. lia.
Qed.

(** C4, for a non-empty [q].  For an MRQ with scales 1..jmax, every
    non-empty [q] and every [wtype], the construction with [j1 == j2], a
    scale of the MRQ, raises [DegenerateRegressionError]: the first
    regression is given a single point. *)
Theorem C4_single_scale_is_degenerate (mrq : MultiResolutionQuantity R)
    (jmax : Z) (q : list R) (j wtype : Z) :
  scales_are mrq jmax -> q <> [] -> (1 <= j <= jmax)%Z ->
  __init__ Utils.linear_regression mrq q j j wtype
  = Raise DegenerateRegressionError.
Proof.
  intros Hs Hq Hj.
  destruct (scale_rows_total mrq q jmax Hs) as [rows Hrows].
  rewrite init_spec. cbv zeta. rewrite Hrows. cbn [bind].
  rewrite range_single.
  assert (Hwj : exists wj, spec_weights mrq wtype [j] = Ok wj).
  { unfold spec_weights. destruct (wtype =? 1)%Z; [|eauto].
    destruct Hs as [_ Hnj]. specialize (Hnj j Hj).
    cbn [Py.map_result]. unfold Py.getitem.
    destruct (Py.lookup (mrq_nj mrq) j); [|congruence]. simpl. eauto. }
  destruct Hwj as [wj ->]. cbn [bind].
  destruct q as [|qq q]; [congruence|].
  cbn [length seq Py.map_result].
  destruct (slice_column_total rows (qq :: q) (j - 1) j 0
              (rows_width mrq (qq :: q) _ rows Hrows) ltac:(simpl; lia))
    as [[y Hy] [z Hz]].
  unfold regress_column at 1. rewrite Hy, Hz. cbn [bind].
  reflexivity.
Qed.

End ExactArithmetic.

(* ================================================================= *)
(** ** The regression of the specification is the least-squares line *)

Section LeastSquares.
Local Open Scope R_scope.

Lemma dot_cons (a b : R) (u v : list R) :
  Utils.dot (a :: u) (b :: v) = a * b + Utils.dot u v.
Proof. reflexivity. Qed.

Lemma sum_cons (a : R) (u : list R) :
  RealArith.sum (a :: u) = a + RealArith.sum u.
Proof. reflexivity. Qed.

(** The weighted squared error of a line, in terms of the six weighted sums
    of the data. *)
Lemma weighted_sse_expand (x : list Z) :
  forall (y w : list R) (a b : R),
    length y = length x -> length w = length x ->
    let xr := map IZR x in
    Utils.weighted_sse x y w a b
    = Utils.dot w (map (fun t => t * t) y)
      - 2 * a * Utils.dot w (map (fun p => fst p * snd p) (combine xr y))
      - 2 * b * Utils.dot w y
      + a * a * Utils.dot w (map (fun t => t * t) xr)
      + 2 * a * b * Utils.dot w xr
      + b * b * RealArith.sum w.
Proof.
  unfold Utils.weighted_sse.
  induction x as [|x0 x IH]; intros y w a b Hy Hw; cbv zeta.
  - destruct y; [|discriminate]. destruct w; [|discriminate].
    cbv [Utils.dot map combine RealArith.sum fold_right]. ring.
  - destruct y as [|y0 y]; [discriminate|].
    destruct w as [|w0 w]; [discriminate|].
    injection Hy as Hy. injection Hw as Hw.
    cbn [map combine fst snd]. rewrite !dot_cons, sum_cons.
    rewrite (IH y w a b Hy Hw). cbv zeta. ring.
Qed.

Lemma weighted_sse_nonneg (x : list Z) :
  forall (y w : list R) (a b : R),
    (forall t, In t w -> 0 <= t) ->
    0 <= Utils.weighted_sse x y w a b.
Proof.
  unfold Utils.weighted_sse.
  induction x as [|x0 x IH]; intros y w a b Hw.
  - destruct w; cbv [Utils.dot map combine RealArith.sum fold_right]; lra.
  - destruct y as [|y0 y];
      [destruct w; cbv [Utils.dot map combine RealArith.sum fold_right]; lra|].
    destruct w as [|w0 w];
      [cbv [Utils.dot map combine RealArith.sum fold_right]; lra|].
    cbn [map combine fst snd]. rewrite dot_cons.
    assert (0 <= w0) by (apply Hw; left; reflexivity).
    assert (0 <= Utils.dot w
                   (map (fun p : Z * R =>
                           (snd p - (a * IZR (fst p) + b)) *
                           (snd p - (a * IZR (fst p) + b)))
                        (combine x y)))
      by (apply IH; intros; apply Hw; right; assumption).
    set (e := y0 - (a * IZR x0 + b)).
    assert (0 <= e * e) by nra.
    assert (0 <= w0 * (e * e)) by (apply Rmult_le_pos; assumption).
    lra.
Qed.

(** With positive weights the determinant of the normal equations is not
    negative, and grows by [w0 * sum(w * (x0 - x)^2)] with a new point. *)
Lemma determinant_cons (w0 : R) (x0 : Z) (w : list R) (x : list Z) :
  let xr := map IZR x in
  let S0 := RealArith.sum w in
  let S1 := Utils.dot w xr in
  let S2 := Utils.dot w (map (fun t => t * t) xr) in
  (w0 + S0) * (w0 * (IZR x0 * IZR x0) + S2)
  - (w0 * IZR x0 + S1) * (w0 * IZR x0 + S1)
  = (S0 * S2 - S1 * S1)
    + w0 * (S2 - 2 * IZR x0 * S1 + IZR x0 * IZR x0 * S0).
Proof. cbv zeta. ring. Qed.

(** [sum(w * (t - x)^2)], by the three sums. *)
Lemma spread_nonneg (t : R) (x : list Z) :
  forall w : list R,
    length w = length x -> (forall u, In u w -> 0 < u) ->
    let xr := map IZR x in
    0 <= Utils.dot w (map (fun t => t * t) xr) - 2 * t * Utils.dot w xr
         + t * t * RealArith.sum w /\
    ((exists k, In k x /\ IZR k <> t) ->
     0 < Utils.dot w (map (fun t => t * t) xr) - 2 * t * Utils.dot w xr
         + t * t * RealArith.sum w).
Proof.
  induction x as [|x0 x IH]; intros w Hlen Hw; cbv zeta.
  - destruct w; [|discriminate].
    cbv [Utils.dot map combine RealArith.sum fold_right].
    split; [lra|]. intros [k [[] _]].
  - destruct w as [|w0 w]; [discriminate|]. injection Hlen as Hlen.
    cbn [map]. rewrite !dot_cons, sum_cons.
    assert (Hw0 : 0 < w0) by (apply Hw; left; reflexivity).
    destruct (IH w Hlen (fun u Hu => Hw u (or_intror Hu))) as [IH0 IH1].
    cbv zeta in IH0, IH1.
    assert (Hsq : 0 <= w0 * ((IZR x0 - t) * (IZR x0 - t))).
    { apply Rmult_le_pos; [lra|].
      pose proof (Rle_0_sqr (IZR x0 - t)) as Hs. exact Hs. }
    split; [nra|].
    intros [k [[<- | Hk] Hne]].
    + assert (0 < w0 * ((IZR x0 - t) * (IZR x0 - t))).
      { apply Rmult_lt_0_compat; [assumption|].
        assert (Hd : IZR x0 - t <> 0) by lra.
        exact (Rsqr_pos_lt _ Hd). }
      nra.
    + specialize (IH1 (ex_intro _ k (conj Hk Hne))). nra.
Qed.

Lemma determinant_pos (x : list Z) :
  forall w : list R,
    length w = length x -> (forall u, In u w -> 0 < u) ->
    let xr := map IZR x in
    0 <= RealArith.sum w * Utils.dot w (map (fun t => t * t) xr)
         - Utils.dot w xr * Utils.dot w xr /\
    ((2 <= length (nodup Z.eq_dec x))%nat ->
     0 < RealArith.sum w * Utils.dot w (map (fun t => t * t) xr)
         - Utils.dot w xr * Utils.dot w xr).
Proof.
  induction x as [|x0 x IH]; intros w Hlen Hw; cbv zeta.
  - destruct w; [|discriminate].
    cbv [Utils.dot map combine RealArith.sum fold_right nodup length].
    split; [lra | lia].
  - destruct w as [|w0 w]; [discriminate|]. injection Hlen as Hlen.
    cbn [map]. rewrite !dot_cons, sum_cons.
    assert (Hw0 : 0 < w0) by (apply Hw; left; reflexivity).
    destruct (IH w Hlen (fun u Hu => Hw u (or_intror Hu))) as [IH0 IH1].
    destruct (spread_nonneg (IZR x0) x w Hlen
                (fun u Hu => Hw u (or_intror Hu))) as [T0 T1].
    cbv zeta in IH0, IH1, T0, T1.
    rewrite determinant_cons.
    split.
    + assert (0 <= w0 * (Utils.dot w (map (fun t => t * t) (map IZR x))
                         - 2 * IZR x0 * Utils.dot w (map IZR x)
                         + IZR x0 * IZR x0 * RealArith.sum w))
        by (apply Rmult_le_pos; lra).
      lra.
    + intros Hdist.
      assert (Hother : exists k, In k x /\ IZR k <> IZR x0).
      { cbn [nodup] in Hdist.
        destruct (in_dec Z.eq_dec x0 x) as [Hin | Hnin].
        - (* x0 occurs again: the tail has two distinct points *)
          destruct (nodup Z.eq_dec x) as [|k1 [|k2 l]] eqn:E;
            [simpl in Hdist; lia | simpl in Hdist; lia |].
          pose proof (NoDup_nodup Z.eq_dec x) as Hnd. rewrite E in Hnd.
          assert (Hk1 : In k1 x) by (apply (nodup_In Z.eq_dec); rewrite E;
                                     left; reflexivity).
          assert (Hk2 : In k2 x) by (apply (nodup_In Z.eq_dec); rewrite E;
                                     right; left; reflexivity).
          assert (Hk12 : k1 <> k2).
          { inversion Hnd as [|? ? Hn1 _]; subst. intros ->.
            apply Hn1. left; reflexivity. }
          destruct (Z.eq_dec k1 x0) as [-> | Hk10].
          + exists k2. split; [assumption|]. intros He.
            apply eq_IZR in He. congruence.
          + exists k1. split; [assumption|]. intros He.
            apply eq_IZR in He. congruence.
        - destruct (nodup Z.eq_dec x) as [|k1 l] eqn:E;
            [simpl in Hdist; lia|].
          assert (Hk1 : In k1 x) by (apply (nodup_In Z.eq_dec); rewrite E;
                                     left; reflexivity).
          exists k1. split; [assumption|]. intros He.
          apply eq_IZR in He. subst. contradiction. }
      specialize (T1 Hother).
      assert (0 < w0 * (Utils.dot w (map (fun t => t * t) (map IZR x))
                        - 2 * IZR x0 * Utils.dot w (map IZR x)
                        + IZR x0 * IZR x0 * RealArith.sum w))
        by (apply Rmult_lt_0_compat; lra).
      lra.
Qed.

(** With positive weights the pair the regression returns minimizes the
    weighted squared error among all lines. *)
Lemma linear_regression_minimizes (x : list Z) (y w : list R) (a b : R) :
  (forall u, In u w -> 0 < u) ->
  Utils.linear_regression x y w = Ok (a, b) ->
  forall a' b' : R,
    Utils.weighted_sse x y w a b <= Utils.weighted_sse x y w a' b'.
Proof.
  intros Hw Hab a' b'. unfold Utils.linear_regression in Hab.
  destruct (length (nodup Z.eq_dec x) <? 2)%nat eqn:Hdist; [discriminate|].
  apply Nat.ltb_ge in Hdist.
  destruct ((length y =? length x)%nat && (length w =? length x)%nat) eqn:Hl;
    [|discriminate].
  apply andb_prop in Hl as [Hly Hlw].
  apply Nat.eqb_eq in Hly, Hlw. cbn [negb] in Hab. cbv zeta in Hab.
  destruct (determinant_pos x w Hlw Hw) as [_ HD]. cbv zeta in HD.
  specialize (HD Hdist).
  rewrite !weighted_sse_expand by assumption. cbv zeta.
  pose proof (weighted_sse_nonneg x (map (fun _ => 0) x) w (a - a') (b - b')
                (fun t Ht => Rlt_le _ _ (Hw t Ht))) as Hq.
  rewrite weighted_sse_expand in Hq by (rewrite ?length_map; auto).
  cbv zeta in Hq.
  set (S0 := RealArith.sum w) in *.
  set (S1 := Utils.dot w (map IZR x)) in *.
  set (S2 := Utils.dot w (map (fun t => t * t) (map IZR x))) in *.
  set (Sy := Utils.dot w y) in *.
  set (Sxy := Utils.dot w (map (fun p => fst p * snd p)
                             (combine (map IZR x) y))) in *.
  set (Syy := Utils.dot w (map (fun t => t * t) y)) in *.
  injection Hab as Ha Hb.
  assert (Hz1 : Utils.dot w (map (fun _ => 0) x) = 0).
  { clear. unfold Utils.dot.
    revert w; induction x as [|x0 x IH]; intros [|w0 w]; simpl; try lra.
    specialize (IH w). simpl in IH. lra. }
  assert (Hz2 : Utils.dot w (map (fun t => t * t) (map (fun _ => 0) x)) = 0).
  { clear. unfold Utils.dot.
    revert w; induction x as [|x0 x IH]; intros [|w0 w]; simpl; try lra.
    specialize (IH w). simpl in IH. lra. }
  assert (Hz3 : Utils.dot w (map (fun p => fst p * snd p)
                               (combine (map IZR x) (map (fun _ => 0) x)))
                = 0).
  { clear. unfold Utils.dot.
    revert w; induction x as [|x0 x IH]; intros [|w0 w]; simpl; try lra.
    specialize (IH w). simpl in IH. lra. }
  rewrite Hz1, Hz2, Hz3 in Hq.
  assert (Hn1 : Sy - a * S1 - b * S0 = 0).
  { rewrite <- Ha, <- Hb. field. lra. }
  assert (Hn2 : Sxy - a * S2 - b * S1 = 0).
  { rewrite <- Ha, <- Hb. field. lra. }
  nra.
Qed.

End LeastSquares.

(* ================================================================= *)
(** ** Further properties of the code *)

Section Further.
Context {F : Type} `{Numeric F}.
Variable linear_regression : list Z -> list F -> list F -> result (F * F).

(** X1.  [get_nj_interv(j1, j2)] returns the list of the counts [nj[j]] for
    [j = j1, ..., j2], in this order, and raises [KeyError] at the first of
    these scales that has no count. *)
Theorem X1_get_nj_interv_counts (self : MultifractalSpectrum F) (j1 j2 : Z) :
  get_nj_interv self j1 j2
  = Py.map_result (Py.getitem (mrq_nj (self_mrq self))) (Py.range j1 (j2 + 1)).
Proof. apply get_nj_interv_spec. Qed.

(** X2.  The matrices [U] and [V] of lines 47-61 have one row per scale of
    [self.j] and one column per order of [self.q]. *)
Theorem X2_statistics_shape (self : MultifractalSpectrum F)
    (U V : list (list F)) :
  compute_UV self = Ok (U, V) ->
  length U = length (self_j self) /\ length V = length (self_j self) /\
  (forall row, In row U -> length row = length (self_q self)) /\
  (forall row, In row V -> length row = length (self_q self)).
Proof.
  rewrite compute_UV_rows. intros HUV.
  apply bind_ok in HUV as [rows [Hrows HUV]]. injection HUV as <- <-.
  rewrite !length_map, (map_result_ok_length _ _ _ Hrows).
  split; [reflexivity|]. split; [reflexivity|].
  split; intros row Hin; apply in_map_iff in Hin as [r [<- Hr]];
    destruct (rows_width _ _ _ _ Hrows r Hr); assumption.
Qed.

(** X3.  No index of the estimator is out of range: a construction raises
    [IndexError] only if the regression routine does. *)
Theorem X3_indices_in_range (mrq : MultiResolutionQuantity F) (q : list F)
    (j1 j2 wtype : Z) :
  (forall x y w, linear_regression x y w <> Raise IndexError) ->
  __init__ linear_regression mrq q j1 j2 wtype <> Raise IndexError.
Proof.
  intros Hlr Hr. apply init_raise_inv in Hr as [[k Hk] | [x [y [w Hxyw]]]].
  - discriminate Hk.
  - exact (Hlr x y w Hxyw).
Qed.

End Further.

(* ================================================================= *)
(** ** The sample inputs at work *)

Section Samples.
Local Open Scope R_scope.

Lemma log2_1 : RealArith.log2 1 = 0.
Proof. unfold RealArith.log2. rewrite ln_1. pose proof ln2_pos. field. lra. Qed.

Lemma log2_2 : RealArith.log2 2 = 1.
Proof. unfold RealArith.log2. pose proof ln2_pos. field. lra. Qed.

Lemma mrq3_scales : scales_are Sample.mrq3 3.
Proof.
  split; [reflexivity|]. intros j Hj.
  assert (Hc : j = 1%Z \/ j = 2%Z \/ j = 3%Z) by lia.
  destruct Hc as [-> | [-> | ->]]; discriminate.
Qed.

Lemma mrq3_valid : valid_mrq Sample.mrq3 3.
Proof.
  split; [exact mrq3_scales|]. intros j n values_j.
  unfold Sample.mrq3. cbn [Py.lookup mrq_nj mrq_values].
  destruct (1 =? j)%Z; [intros [= <-] [= <-]; simpl; lia|].
  destruct (2 =? j)%Z; [intros [= <-] [= <-]; simpl; lia|].
  destruct (3 =? j)%Z; [intros [= <-] [= <-]; simpl; lia|].
  discriminate.
Qed.

(** The sample of eleven coefficients is a valid MRQ of one scale. *)
Lemma ones11_valid : valid_mrq Sample64.ones11 1.
Proof.
  split; [split; [reflexivity|]|].
  - intros j Hj. assert (j = 1%Z) as -> by lia. discriminate.
  - intros j n values_j. unfold Sample64.ones11.
    cbn [Py.lookup mrq_nj mrq_values].
    destruct (1 =? j)%Z; [intros [= <-] [= <-]; simpl; lia|discriminate].
Qed.

Lemma flat5_scales : scales_are Sample.flat5 5.
Proof.
  split; [reflexivity|]. intros j Hj.
  assert (Hc : j = 1%Z \/ j = 2%Z \/ j = 3%Z \/ j = 4%Z \/ j = 5%Z) by lia.
  destruct Hc as [-> | [-> | [-> | [-> | ->]]]]; discriminate.
Qed.

Lemma bump5_scales : scales_are Sample.bump5 5.
Proof.
  split; [reflexivity|]. intros j Hj.
  assert (Hc : j = 1%Z \/ j = 2%Z \/ j = 3%Z \/ j = 4%Z \/ j = 5%Z) by lia.
  destruct Hc as [-> | [-> | [-> | [-> | ->]]]]; discriminate.
Qed.

(** Below scale 1 the two MRQs of five scales have nothing to disagree
    on. *)
Lemma flat5_bump5_agree_below (j : Z) :
  (j <= 0)%Z -> agree_at Sample.flat5 Sample.bump5 j.
Proof.
  intros Hj. unfold Sample.flat5, Sample.bump5.
  split; cbn [Py.lookup mrq_nj mrq_values];
    repeat match goal with
      | |- context [(?k =? j)%Z] =>
          replace (k =? j)%Z with false by (symmetry; apply Z.eqb_neq; lia)
      end; reflexivity.
Qed.

(** [flat5] and [bump5] differ at scale 4 only. *)
Lemma flat5_bump5_agree_but_4 (j : Z) :
  j <> 4%Z -> agree_at Sample.flat5 Sample.bump5 j.
Proof.
  intros Hj. unfold Sample.flat5, Sample.bump5.
  split; cbn [Py.lookup mrq_nj mrq_values]; [reflexivity|].
  destruct (1 =? j)%Z; [reflexivity|].
  destruct (2 =? j)%Z; [reflexivity|].
  destruct (3 =? j)%Z; [reflexivity|].
  replace (4 =? j)%Z with false by (symmetry; apply Z.eqb_neq; lia).
  reflexivity.
Qed.

End Samples.

(** C3 fails on the code.  Scale 4 is not a scale of [mrq3], and the
    construction on the window 1..4 with weights by count fails with
    [KeyError], not [InvalidRangeError]; with [j1 = 3 > j2 = 1] and an empty
    [q] the construction succeeds and returns empty [hq] and [Dq]. *)
Lemma C3_counterexample :
  ~ In 4 (Py.keys (mrq_values Sample.mrq3)) /\
  __init__ Utils.linear_regression Sample.mrq3 [2%R] 1 4 1
  = Raise (KeyError 4) /\
  spectrum (__init__ Utils.linear_regression Sample.mrq3 [] 3 1 0)
  = Ok (Some [], Some []).
Proof.
  split; [|split; reflexivity].
  simpl. intros [H | [H | [H | []]]]; discriminate H.
Qed.

(** C4 fails on the code for an empty [q]: with [j1 = j2 = 2] the
    construction succeeds and returns empty [hq] and [Dq]. *)
Lemma C4_counterexample :
  spectrum (__init__ Utils.linear_regression Sample.mrq3 [] 2 2 0)
  = Ok (Some [], Some []) /\
  spectrum (__init__ Utils.linear_regression Sample.mrq3 [] 2 2 1)
  = Ok (Some [], Some []).
Proof. split; reflexivity. Qed.

(** C5 fails on the code: the construction with an empty [q] succeeds, in
    both modes, and raises no [EmptyMomentSetError]. *)
Lemma C5_counterexample :
  spectrum (__init__ Utils.linear_regression Sample.mrq3 [] 1 3 0)
  = Ok (Some [], Some []) /\
  spectrum (__init__ Utils.linear_regression Sample.mrq3 [] 1 3 1)
  = Ok (Some [], Some []).
Proof. split; reflexivity. Qed.

(** C9 fails on the code: after the construction the object holds the
    matrices [U] and [V], of three rows and two columns here. *)
Lemma C9_counterexample :
  exists (obj : MultifractalSpectrum R) (U V : list (list R)),
    __init__ Utils.linear_regression Sample.mrq3 [0%R; 2%R] 1 3 0 = Ok obj /\
    self_U obj = Some U /\ self_V obj = Some V /\
    map (@length R) U = [2; 2; 2]%nat /\ map (@length R) V = [2; 2; 2]%nat.
Proof.
  do 3 eexists. split; [reflexivity|].
  split; [reflexivity|]. split; [reflexivity|]. split; reflexivity.
Qed.

(** C10 fails on the code for a window below 0.  [flat5] and [bump5] have
    the scales 1..5 and agree at every scale of the window -3..-1, and at
    every scale but 4; with [q = [0]] and ordinary weights their [hq]
    differ: the slice [U[-4:-1]] selects the rows of the scales 2, 3 and
    4. *)
Lemma C10_counterexample :
  scales_are Sample.flat5 5 /\ scales_are Sample.bump5 5 /\
  (forall j, -3 <= j <= -1 -> agree_at Sample.flat5 Sample.bump5 j) /\
  spectrum (__init__ Utils.linear_regression Sample.flat5 [0%R] (-3) (-1) 0)
  <> spectrum (__init__ Utils.linear_regression Sample.bump5 [0%R] (-3) (-1) 0).
Proof.
  split; [exact flat5_scales|]. split; [exact bump5_scales|].
  split; [intros j Hj; apply flat5_bump5_agree_below; lia|].
  intros Heq.
  cbv -[Rplus Rmult Rdiv Rminus Ropp Rinv IZR RealArith.power RealArith.log2
        Rabs] in Heq.
  injection Heq as Hh _.
  rewrite !power_0, Rabs_R1, (Rabs_pos_eq 2), log2_1, log2_2 in Hh
    by lra.
  lra.
Qed.

(** C2 fails on the code for an MRQ whose scales do not start at 1.  The
    scales of [scales_2_to_4] are 2, 3 and 4, and the window 2..3 lies
    within them.  With [q = [0]] and ordinary weights the code regresses
    rows 1 and 2 of [V], which are the scales 3 and 4, against x = [2, 3]:
    [hq[0]] is not the slope of the regression of V at the scales 2 and 3
    against x. *)
Lemma C2_counterexample :
  exists (obj : MultifractalSpectrum R) (hq wj z : list R)
         (slope intercept : R),
    Py.keys (mrq_values Sample2.scales_2_to_4) = [2; 3; 4] /\
    __init__ Utils.linear_regression Sample2.scales_2_to_4 [0%R] 2 3 0
    = Ok obj /\
    self_hq obj = Some hq /\
    spec_weights Sample2.scales_2_to_4 0 (Py.range 2 (3 + 1)) = Ok wj /\
    Py.map_result (scale_V Sample2.scales_2_to_4 0%R) (Py.range 2 (3 + 1))
    = Ok z /\
    Utils.linear_regression (Py.range 2 (3 + 1)) z wj
    = Ok (slope, intercept) /\
    nth_error hq 0 <> Some slope.
Proof.
  do 6 eexists. split; [reflexivity|]. split; [reflexivity|].
  split; [reflexivity|]. split; [reflexivity|]. split; [reflexivity|].
  split; [reflexivity|].
  intros Heq.
  cbv -[Rplus Rmult Rdiv Rminus Ropp Rinv IZR RealArith.power RealArith.log2
        Rabs] in Heq.
  injection Heq as Hh.
  rewrite !power_0, Rabs_R1, (Rabs_pos_eq 2), log2_1, log2_2 in Hh
    by lra.
  lra.
Qed.

(** C6 fails on the code, whose arithmetic is binary64.  [ones11] is a valid
    MRQ: one scale, of eleven coefficients.  With [q = [0]] the entry
    U[0, 0] is not 0: it is -2^-51 = -4.44e-16, the rounding error of
    log2(11) + (the sum of eleven copies of (1/11) * log2(1/11)). *)
Lemma C6_counterexample :
  valid_mrq Sample64.ones11 1 /\
  exists (U V : list (list PrimFloat.float)) (u : PrimFloat.float),
    compute_UV (init_state Sample64.ones11 [PrimFloat.zero] 1 1 0)
    = Ok (U, V) /\
    Np.getitem2 U 0 0 = Some u /\
    PrimFloat.eqb u PrimFloat.zero = false /\
    u = PrimFloat.opp (FloatOps.Z.ldexp PrimFloat.one (-51)).
Proof.
  split; [exact ones11_valid|].
  do 3 eexists. split; [vm_compute; reflexivity|].
  split; [reflexivity|]. split; vm_compute; reflexivity.
Qed.

(* ================================================================= *)
(** ** The theorems at the sample inputs *)

Lemma C2_regression_outputs_witness :
  exists obj : MultifractalSpectrum R,
    __init__ Utils.linear_regression Sample.mrq3 [0%R; 2%R] 1 3 1 = Ok obj /\
    exists (wj Dq hq : list R),
      spec_weights Sample.mrq3 1 (Py.range 1 (3 + 1)) = Ok wj /\
      self_Dq obj = Some Dq /\ self_hq obj = Some hq /\
      forall (ind_q : nat) (qq : R),
        nth_error [0%R; 2%R] ind_q = Some qq ->
        exists (y z : list R) (slope_D intercept_D slope_h intercept_h : R),
          Py.map_result (scale_U Sample.mrq3 qq) (Py.range 1 (3 + 1)) = Ok y /\
          Py.map_result (scale_V Sample.mrq3 qq) (Py.range 1 (3 + 1)) = Ok z /\
          Utils.linear_regression (Py.range 1 (3 + 1)) y wj
          = Ok (slope_D, intercept_D) /\
          Utils.linear_regression (Py.range 1 (3 + 1)) z wj
          = Ok (slope_h, intercept_h) /\
          nth_error Dq ind_q = Some (fadd fone slope_D) /\
          nth_error hq ind_q = Some slope_h.
Proof.
  destruct (__init__ Utils.linear_regression Sample.mrq3 [0%R; 2%R] 1 3 1)
    as [obj|e] eqn:E; [|discriminate E].
  exists obj. split; [reflexivity|].
  exact (C2_regression_outputs Utils.linear_regression Sample.mrq3
           [0%R; 2%R] 1 3 1 3 obj mrq3_scales ltac:(lia) ltac:(lia)
           ltac:(lia) E).
Defined.

Lemma C3_no_range_validation_witness :
  exists k : Z,
    1 <= k <= 4 /\ Py.lookup (mrq_nj Sample.mrq3) k = None /\
    __init__ Utils.linear_regression Sample.mrq3 [2%R] 1 4 1
    = Raise (KeyError k).
Proof.
  apply (proj2 (C3_no_range_validation Utils.linear_regression Sample.mrq3
                  [2%R] 1 4 1) 3 mrq3_scales eq_refl).
  exists 4. split; [lia | reflexivity].
Defined.

Lemma C4_single_scale_is_degenerate_witness :
  __init__ Utils.linear_regression Sample.mrq3 [0%R; 2%R] 2 2 1
  = Raise DegenerateRegressionError.
Proof.
  apply (C4_single_scale_is_degenerate Sample.mrq3 3 [0%R; 2%R] 2 1
           mrq3_scales); [discriminate | lia].
Defined.

Lemma C5_empty_q_is_accepted_witness :
  exists obj : MultifractalSpectrum R,
    __init__ Utils.linear_regression Sample.mrq3 [] 1 3 1 = Ok obj.
Proof.
  apply (proj2 (proj2 (C5_empty_q_is_accepted Utils.linear_regression
                         Sample.mrq3 1 3 1)) 3 mrq3_scales).
  intros _ j Hj. exact (proj2 mrq3_scales j Hj).
Defined.

Lemma C6_U_at_order_zero_is_the_uniform_value_witness :
  exists U V : list (list PrimFloat.float),
    compute_UV (init_state Sample64.ones11 [PrimFloat.zero] 1 1 0)
    = Ok (U, V) /\
    length U = 1%nat /\
    forall (ind_j : nat) (j : Z) (ind_q : nat),
      nth_error [1] ind_j = Some j ->
      nth_error [PrimFloat.zero] ind_q = Some PrimFloat.zero ->
      exists nj : Z,
        Py.lookup (mrq_nj Sample64.ones11) j = Some nj /\
        Np.getitem2 U ind_j ind_q = Some (uniform_U nj).
Proof.
  exact (proj1 C6_U_at_order_zero_is_the_uniform_value PrimFloat.float
           Float64.numeric Sample64.ones11 1 [PrimFloat.zero] 1 1 0
           (fun m => eq_refl) ones11_valid).
Defined.

Lemma C7_constant_count_same_spectrum_witness :
  spectrum (__init__ Utils.linear_regression Sample.mrq3 [0%R; 2%R] 1 2 0)
  = spectrum (__init__ Utils.linear_regression Sample.mrq3 [0%R; 2%R] 1 2 1).
Proof.
  apply (C7_constant_count_same_spectrum Sample.mrq3 [0%R; 2%R] 1 2 0 2);
    [discriminate | lia |].
  intros j Hj. assert (Hc : j = 1 \/ j = 2) by lia.
  destruct Hc as [-> | ->]; reflexivity.
Defined.


Lemma C9_statistics_are_retained_witness :
  exists (obj : MultifractalSpectrum R) (U V : list (list R)),
    __init__ Utils.linear_regression Sample.mrq3 [0%R; 2%R] 1 3 0 = Ok obj /\
    compute_UV (init_state Sample.mrq3 [0%R; 2%R] 1 3 0) = Ok (U, V) /\
    self_U obj = Some U /\ self_V obj = Some V.
Proof.
  destruct (__init__ Utils.linear_regression Sample.mrq3 [0%R; 2%R] 1 3 0)
    as [obj|e] eqn:E; [|discriminate E].
  destruct (C9_statistics_are_retained Utils.linear_regression Sample.mrq3
              [0%R; 2%R] 1 3 0 obj E)
    as [U [V [Dq [hq [HUV [HU [HV _]]]]]]].
  exists obj, U, V. split; [reflexivity|]. auto.
Defined.

Lemma C10_window_noninterference_witness :
  spectrum (__init__ Utils.linear_regression Sample.flat5 [0%R; 2%R] 1 3 1)
  = spectrum (__init__ Utils.linear_regression Sample.bump5 [0%R; 2%R] 1 3 1).
Proof.
  apply (C10_window_noninterference Utils.linear_regression Sample.flat5
           Sample.bump5 [0%R; 2%R] 1 3 1 5 flat5_scales bump5_scales).
  - lia.
  - intros j Hj. apply flat5_bump5_agree_but_4. lia.
Defined.

Lemma X2_statistics_shape_witness :
  exists U V : list (list R),
    compute_UV (init_state Sample.mrq3 [0%R; 2%R] 1 3 0) = Ok (U, V) /\
    length U = 3%nat /\ length V = 3%nat /\
    (forall row, In row U -> length row = 2%nat) /\
    (forall row, In row V -> length row = 2%nat).
Proof.
  destruct (compute_UV (init_state Sample.mrq3 [0%R; 2%R] 1 3 0))
    as [[U V]|e] eqn:E; [|discriminate E].
  exists U, V. split; [reflexivity|].
  exact (X2_statistics_shape (init_state Sample.mrq3 [0%R; 2%R] 1 3 0) U V E).
Defined.

Lemma X3_indices_in_range_witness :
  __init__ Utils.linear_regression Sample.mrq3 [0%R; 2%R] 1 3 0
  <> Raise IndexError.
Proof.
  apply (X3_indices_in_range Utils.linear_regression).
  intros x y w. unfold Utils.linear_regression.
  destruct (length (nodup Z.eq_dec x) <? 2)%nat; [discriminate|].
  destruct (negb _); discriminate.
Defined.

(* ================================================================= *)
(** ** The spectrum, one moment order at a time *)

Section OrderByOrder.
Context {F : Type} `{Numeric F}.
Variable linear_regression : list Z -> list F -> list F -> result (F * F).

Lemma map_result_app {A B : Type} (f : A -> result B) (l1 l2 : list A)
    (r1 r2 : list B) :
  Py.map_result f l1 = Ok r1 -> Py.map_result f l2 = Ok r2 ->
  Py.map_result f (l1 ++ l2) = Ok (r1 ++ r2).
Proof.
  revert r1; induction l1 as [|a l1 IH]; intros r1 H1 H2; simpl in *.
  - injection H1 as <-. assumption.
  - apply bind_ok in H1 as [b [Hb H1]].
    apply bind_ok in H1 as [bs [Hbs H1]]. injection H1 as <-.
    rewrite Hb, (IH bs Hbs H2). reflexivity.
Qed.

Lemma map_result_In {A B : Type} (f : A -> result B) (l : list A)
    (r : list B) (a : A) :
  Py.map_result f l = Ok r -> In a l -> exists b, f a = Ok b.
Proof.
  intros Hr Hin. apply In_nth_error in Hin as [i Hi].
  destruct (map_result_nth f l r i a Hr Hi) as [b [Hb _]]. eauto.
Qed.

(** A comprehension over the indices of a list is the comprehension over
    its elements, when the function of an index only looks at the element. *)
Lemma map_result_indices {A B : Type} (f : nat -> result B)
    (g : A -> result B) (l : list A) :
  forall s : nat,
    (forall k a, nth_error l k = Some a -> f (s + k)%nat = g a) ->
    Py.map_result f (seq s (length l)) = Py.map_result g l.
Proof.
  induction l as [|a l IH]; intros s Hfg; simpl; [reflexivity|].
  rewrite <- (Hfg 0%nat a eq_refl), Nat.add_0_r.
  rewrite (IH (S s)); [reflexivity|].
  intros k b Hk. rewrite <- (Hfg (S k) b Hk). f_equal. lia.
Qed.

(** Whether the statistics loops complete does not depend on [q]. *)
Lemma scale_rows_any_q (mrq : MultiResolutionQuantity F) (q q' : list F)
    (rows : list (list F * list F)) :
  Py.map_result (scale_rows mrq q) (Py.keys (mrq_values mrq)) = Ok rows ->
  exists rows',
    Py.map_result (scale_rows mrq q') (Py.keys (mrq_values mrq)) = Ok rows'.
Proof.
  intros Hrows. apply map_result_total. intros j Hj.
  destruct (map_result_In _ _ _ j Hrows Hj) as [r Hr].
  apply scale_rows_inv in Hr as [nj [values_j [Hnj [Hv _]]]].
  unfold scale_rows, Py.getitem. rewrite Hnj, Hv. simpl. eauto.
Qed.

(** The regressions of column [k] are those of the order [q[k]]. *)
Lemma regress_column_by_order (mrq : MultiResolutionQuantity F)
    (q : list F) (j1 j2 : Z) (wj : list F)
    (rows : list (list F * list F)) (k : nat) (qq : F) :
  Py.map_result (scale_rows mrq q) (Py.keys (mrq_values mrq)) = Ok rows ->
  nth_error q k = Some qq ->
  regress_column linear_regression (map fst rows) (map snd rows) j1 j2
    (Py.range j1 (j2 + 1)) wj k
  = order_spectrum linear_regression mrq j1 j2 wj qq.
Proof.
  intros Hrows Hq. unfold regress_column, order_spectrum, Np.slice_column.
  cbv zeta. rewrite !slice_map.
  apply (map_result_slice _ (j1 - 1) j2) in Hrows.
  destruct (column_of_rows mrq q k qq _ Hq _ Hrows) as [-> ->].
  reflexivity.
Qed.

(** The constructor, with the regressions taken order by order. *)
Lemma init_by_order (mrq : MultiResolutionQuantity F) (q : list F)
    (j1 j2 wtype : Z) :
  __init__ linear_regression mrq q j1 j2 wtype
  = rows <- Py.map_result (scale_rows mrq q) (Py.keys (mrq_values mrq)) ;;
    wj <- spec_weights mrq wtype (Py.range j1 (j2 + 1)) ;;
    pairs <- Py.map_result (order_spectrum linear_regression mrq j1 j2 wj) q ;;
    Ok {| self_mrq := mrq;
          self_j := Py.keys (mrq_values mrq);
          self_q := q;
          self_Dq := Some (map fst pairs);
          self_hq := Some (map snd pairs);
          self_wt_param :=
            {| WaveletParameters.j1 := j1; WaveletParameters.j2 := j2;
               WaveletParameters.wtype := wtype |};
          self_U := Some (map fst rows);
          self_V := Some (map snd rows) |}.
Proof.
  rewrite init_spec. cbv zeta.
  destruct (Py.map_result (scale_rows mrq q) (Py.keys (mrq_values mrq)))
    as [rows|e] eqn:Hrows; [|reflexivity].
  cbn [bind].
  destruct (spec_weights mrq wtype (Py.range j1 (j2 + 1))) as [wj|e];
    [|reflexivity].
  cbn [bind].
  rewrite (map_result_indices _
             (order_spectrum linear_regression mrq j1 j2 wj) q 0%nat);
    [reflexivity|].
  intros k qq Hk. exact (regress_column_by_order mrq q j1 j2 wj rows k qq Hrows Hk).
Qed.

(** X5.  The estimate for a sequence of orders [q1 ++ q2] is the estimate
    for [q1] followed by the estimate for [q2]: when both constructions
    succeed, so does the construction on [q1 ++ q2], with
    hq = hq1 ++ hq2 and Dq = Dq1 ++ Dq2. *)
Theorem X5_orders_concatenate (mrq : MultiResolutionQuantity F)
    (q1 q2 : list F) (j1 j2 wtype : Z) (obj1 obj2 : MultifractalSpectrum F) :
  __init__ linear_regression mrq q1 j1 j2 wtype = Ok obj1 ->
  __init__ linear_regression mrq q2 j1 j2 wtype = Ok obj2 ->
  exists (obj : MultifractalSpectrum F) (hq1 Dq1 hq2 Dq2 : list F),
    self_hq obj1 = Some hq1 /\ self_Dq obj1 = Some Dq1 /\
    self_hq obj2 = Some hq2 /\ self_Dq obj2 = Some Dq2 /\
    __init__ linear_regression mrq (q1 ++ q2) j1 j2 wtype = Ok obj /\
    self_hq obj = Some (hq1 ++ hq2) /\ self_Dq obj = Some (Dq1 ++ Dq2).
Proof.
  rewrite !init_by_order. intros H1 H2.
  apply bind_ok in H1 as [rows1 [Hrows1 H1]].
  apply bind_ok in H1 as [wj [Hwj H1]].
  apply bind_ok in H1 as [pairs1 [Hp1 H1]]. injection H1 as <-.
  apply bind_ok in H2 as [rows2 [Hrows2 H2]].
  rewrite Hwj in H2. cbn [bind] in H2.
  apply bind_ok in H2 as [pairs2 [Hp2 H2]]. injection H2 as <-.
  destruct (scale_rows_any_q mrq q1 (q1 ++ q2) rows1 Hrows1) as [rows Hrows].
  rewrite Hrows, Hwj. cbn [bind].
  rewrite (map_result_app _ _ _ _ _ Hp1 Hp2). cbn [bind].
  eexists. exists (map snd pairs1), (map fst pairs1), (map snd pairs2),
    (map fst pairs2).
  cbn [self_hq self_Dq]. rewrite !map_app. auto 10.
Qed.

(** X6.  Each entry of the outputs is the estimate of its own order alone:
    after a successful construction, for the order [qq] at any position
    [i] of [q], the construction on the single order [qq] succeeds and
    returns hq = [hq[i]] and Dq = [Dq[i]].  Equal orders get equal
    entries. *)
Theorem X6_entry_of_its_order_alone (mrq : MultiResolutionQuantity F)
    (q : list F) (j1 j2 wtype : Z) (obj : MultifractalSpectrum F)
    (i : nat) (qq : F) :
  __init__ linear_regression mrq q j1 j2 wtype = Ok obj ->
  nth_error q i = Some qq ->
  exists (obj1 : MultifractalSpectrum F) (hq Dq : list F) (h d : F),
    self_hq obj = Some hq /\ self_Dq obj = Some Dq /\
    nth_error hq i = Some h /\ nth_error Dq i = Some d /\
    __init__ linear_regression mrq [qq] j1 j2 wtype = Ok obj1 /\
    self_hq obj1 = Some [h] /\ self_Dq obj1 = Some [d].
Proof.
  rewrite !init_by_order. intros Hobj Hq.
  apply bind_ok in Hobj as [rows [Hrows Hobj]].
  apply bind_ok in Hobj as [wj [Hwj Hobj]].
  apply bind_ok in Hobj as [pairs [Hp Hobj]]. injection Hobj as <-.
  destruct (map_result_nth _ _ _ _ _ Hp Hq) as [[d h] [Hdh Hnth]].
  destruct (scale_rows_any_q mrq q [qq] rows Hrows) as [rows1 Hrows1].
  rewrite Hrows1, Hwj. cbn [bind Py.map_result]. rewrite Hdh. cbn [bind].
  eexists. exists (map snd pairs), (map fst pairs), h, d.
  cbn [self_hq self_Dq map fst snd]. rewrite !nth_error_map, Hnth.
  cbn [option_map fst snd]. auto 10.
Qed.

End OrderByOrder.

(* ================================================================= *)
(** ** Missing counts, windows out of range, and the plot *)

Section EdgeBehaviour.
Context {F : Type} `{Numeric F}.
Variable linear_regression : list Z -> list F -> list F -> result (F * F).

Lemma map_result_first_raise {A B : Type} (f : A -> result B)
    (pre post : list A) (a : A) (e : exn) :
  (forall x, In x pre -> exists b, f x = Ok b) ->
  f a = Raise e ->
  Py.map_result f (pre ++ a :: post) = Raise e.
Proof.
  induction pre as [|x pre IH]; intros Hpre Ha; simpl.
  - rewrite Ha. reflexivity.
  - destruct (Hpre x (or_introl eq_refl)) as [b ->]. cbn [bind].
    rewrite IH; [reflexivity | | assumption].
    intros; apply Hpre; right; assumption.
Qed.

(** X7.  A scale of [mrq.values] without a count in [mrq.nj] makes every
    construction fail: it raises the [KeyError] of the first such scale,
    whatever [q], [j1], [j2] and [wtype] (an empty [q], or a window that
    leaves the scale out, does not avoid it). *)
Theorem X7_scale_without_count (mrq : MultiResolutionQuantity F)
    (q : list F) (j1 j2 wtype : Z) (before after : list Z) (k : Z) :
  Py.keys (mrq_values mrq) = before ++ k :: after ->
  (forall j, In j before -> Py.lookup (mrq_nj mrq) j <> None) ->
  Py.lookup (mrq_nj mrq) k = None ->
  __init__ linear_regression mrq q j1 j2 wtype = Raise (KeyError k).
Proof.
  intros Hkeys Hbefore Hk. rewrite init_spec. cbv zeta.
  rewrite Hkeys at 1.
  rewrite (map_result_first_raise _ before after k (KeyError k)).
  - reflexivity.
  - intros j Hj.
    assert (Hin : In j (Py.keys (mrq_values mrq)))
      by (rewrite Hkeys; apply in_or_app; left; assumption).
    pose proof (lookup_keys _ _ Hin) as Hv. specialize (Hbefore j Hj).
    unfold scale_rows, Py.getitem.
    destruct (Py.lookup (mrq_nj mrq) j); [|congruence].
    destruct (Py.lookup (mrq_values mrq) j); [|congruence].
    simpl; eauto.
  - unfold scale_rows, Py.getitem. rewrite Hk. reflexivity.
Qed.

(** X8.  With ordinary weights ([wtype] other than 1) and a count for every
    scale of [mrq.values], the estimator itself rejects no window: for all
    integers [j1] and [j2], in or out of the scales and in any order, a
    construction fails only with an error that the regression routine
    raised. *)
Theorem X8_ordinary_rejects_no_window (mrq : MultiResolutionQuantity F)
    (q : list F) (j1 j2 wtype : Z) (e : exn) :
  wtype <> 1 ->
  (forall j, In j (Py.keys (mrq_values mrq)) ->
             Py.lookup (mrq_nj mrq) j <> None) ->
  __init__ linear_regression mrq q j1 j2 wtype = Raise e ->
  exists x y w, linear_regression x y w = Raise e.
Proof.
  intros Hw Hnj. rewrite init_spec. cbv zeta. intros Hr.
  apply bind_raise in Hr as [Hr | [rows [Hrows Hr]]].
  { apply map_result_raise in Hr as [j [Hj Hr]].
    pose proof (lookup_keys _ _ Hj) as Hv. specialize (Hnj j Hj).
    unfold scale_rows, Py.getitem in Hr.
    destruct (Py.lookup (mrq_nj mrq) j); [|congruence].
    destruct (Py.lookup (mrq_values mrq) j); [|congruence].
    discriminate Hr. }
  unfold spec_weights in Hr.
  replace (wtype =? 1) with false in Hr
    by (symmetry; apply Z.eqb_neq; assumption).
  cbn [bind] in Hr.
  apply bind_raise in Hr as [Hr | [pairs [_ Hr]]]; [|discriminate].
  apply map_result_raise in Hr as [k [Hk Hr]]. apply in_seq in Hk.
  destruct (slice_column_total rows q (j1 - 1) j2 k
              (rows_width mrq q _ rows Hrows) ltac:(lia))
    as [[y Hy] [z Hz]].
  unfold regress_column in Hr. rewrite Hy, Hz in Hr. cbn [bind] in Hr.
  unfold spec_regress in Hr.
  apply bind_raise in Hr as [Hr | [[slope_D intercept_D] [_ Hr]]]; [eauto 6|].
  apply bind_raise in Hr as [Hr | [[slope_h intercept_h] [_ Hr]]]; [eauto 6|].
  discriminate.
Qed.


Lemma length_slice {A : Type} (start stop : Z) (l : list A) :
  length (Py.slice start stop l)
  = Z.to_nat (Py.slice_index (Z.of_nat (length l)) stop
              - Py.slice_index (Z.of_nat (length l)) start).
Proof.
  unfold Py.slice. rewrite length_firstn, length_skipn.
  pose proof (slice_index_bounds (Z.of_nat (length l)) start ltac:(lia)).
  pose proof (slice_index_bounds (Z.of_nat (length l)) stop ltac:(lia)).
  lia.
Qed.

(** X9.  What the regression routine is handed, for an MRQ with scales
    1..jmax, [j1 >= 1] and [j2 >= 0]: [x] has [j2 + 1 - j1] points, the
    weights (in either mode) have the length of [x], and the columns [y] and
    [z] have [min(j2, jmax) + 1 - j1] entries (none when this is negative).
    So the three lengths agree when [j2 <= jmax], and [y] and [z] are
    shorter than [x] when the window runs past the last scale. *)
Theorem X9_regression_input_lengths (mrq : MultiResolutionQuantity F)
    (q : list F) (j1 j2 wtype jmax : Z) (U V : list (list F)) :
  scales_are mrq jmax -> 1 <= j1 -> 0 <= j2 ->
  compute_UV (init_state mrq q j1 j2 wtype) = Ok (U, V) ->
  let x := Py.range j1 (j2 + 1) in
  length x = Z.to_nat (j2 + 1 - j1) /\
  (forall wj, weights (init_state mrq q j1 j2 wtype) x = Ok wj ->
              length wj = length x) /\
  (forall ind_q : nat, (ind_q < length q)%nat ->
     exists y z : list F,
       Np.slice_column U (j1 - 1) j2 ind_q = Ok y /\
       Np.slice_column V (j1 - 1) j2 ind_q = Ok z /\
       length y = Z.to_nat (Z.min j2 jmax + 1 - j1) /\
       length z = Z.to_nat (Z.min j2 jmax + 1 - j1)).
Proof.
  intros [Hkeys _] H1 H2 HUV x. subst x.
  rewrite compute_UV_init in HUV.
  apply bind_ok in HUV as [rows [Hrows HUV]]. injection HUV as <- <-.
  split; [apply length_range|]. split.
  - intros wj Hwj.
    pose proof (weights_spec (init_state mrq q j1 j2 wtype)) as Hspec.
    cbn [init_state self_wt_param WaveletParameters.j1 WaveletParameters.j2
         WaveletParameters.wtype self_mrq] in Hspec.
    rewrite Hspec in Hwj. unfold spec_weights in Hwj.
    destruct (wtype =? 1).
    + apply (map_result_ok_length _ _ _ Hwj).
    + injection Hwj as <-. apply length_map.
  - intros ind_q Hlt.
    destruct (slice_column_total rows q (j1 - 1) j2 ind_q
                (rows_width mrq q _ rows Hrows) Hlt) as [[y Hy] [z Hz]].
    exists y, z. split; [assumption|]. split; [assumption|].
    pose proof (map_result_ok_length _ _ _ Hrows) as Hlen.
    rewrite Hkeys, length_range in Hlen.
    unfold Np.slice_column, Np.column in Hy, Hz.
    apply map_result_ok_length in Hy, Hz.
    rewrite length_slice, length_map in Hy, Hz.
    rewrite Hy, Hz, Hlen. unfold Py.slice_index.
    replace (j1 - 1 <? 0) with false by lia.
    replace (j2 <? 0) with false by lia.
    split; lia.
Qed.

Lemma scale_rows_same_magnitudes (a b : MultiResolutionQuantity F)
    (q : list F) (j : Z) :
  same_magnitudes a b -> scale_rows a q j = scale_rows b q j.
Proof.
  intros [Hnj [_ Hv]]. specialize (Hv j).
  unfold scale_rows, Py.getitem. rewrite Hnj.
  destruct (Py.lookup (mrq_nj b) j) as [nj|]; [|reflexivity]. cbn [bind].
  destruct (Py.lookup (mrq_values a) j) as [va|],
           (Py.lookup (mrq_values b) j) as [vb|];
    simpl in Hv; try discriminate.
  - injection Hv as Hv. cbn [bind]. unfold spec_U, spec_V. cbv zeta.
    rewrite Hv. reflexivity.
  - (* the scale is missing from both dicts *)
    cbn [bind]. f_equal.
Qed.

(** X10.  The estimator reads the coefficients through their absolute
    values only, and never reads [mrq.name]: two MRQs with the same scales
    and counts whose coefficients have the same absolute values get the
    same [U] and [V] and the same outcome (hq, Dq), or the same error. *)
Theorem X10_only_magnitudes_matter (a b : MultiResolutionQuantity F)
    (q : list F) (j1 j2 wtype : Z) :
  same_magnitudes a b ->
  compute_UV (init_state a q j1 j2 wtype)
  = compute_UV (init_state b q j1 j2 wtype) /\
  spectrum (__init__ linear_regression a q j1 j2 wtype)
  = spectrum (__init__ linear_regression b q j1 j2 wtype).
Proof.
  intros Hab.
  assert (Hrows : Py.map_result (scale_rows a q) (Py.keys (mrq_values a))
                  = Py.map_result (scale_rows b q) (Py.keys (mrq_values b))).
  { destruct Hab as [Hnj [Hkeys Hv]]. rewrite <- Hkeys.
    apply map_result_ext. intros j _.
    apply scale_rows_same_magnitudes. repeat split; assumption. }
  split.
  - rewrite !compute_UV_init, Hrows. reflexivity.
  - rewrite !init_spec. cbv zeta. rewrite Hrows.
    destruct (Py.map_result (scale_rows b q) (Py.keys (mrq_values b)))
      as [rows|e]; [|reflexivity].
    cbn [bind]. unfold spec_weights.
    destruct Hab as [Hnj _]. rewrite Hnj.
    destruct (if wtype =? 1 then _ else _) as [wj|e]; [|reflexivity].
    cbn [bind].
    destruct (Py.map_result _ (seq 0 (length q))); reflexivity.
Qed.

(** X11.  [plot] after a successful construction: it opens the figure of
    the given label, or of the label 'Multifractal Spectrum' when none is
    given, and draws one curve, hq on the x-axis against Dq on the y-axis,
    two arrays of len(q) entries each, under a title made of the name of the
    MRQ given to the constructor. *)
Theorem X11_plot_draws_the_spectrum (mrq : MultiResolutionQuantity F)
    (q : list F) (j1 j2 wtype : Z) (obj : MultifractalSpectrum F) :
  __init__ linear_regression mrq q j1 j2 wtype = Ok obj ->
  exists hq Dq : list F,
    self_hq obj = Some hq /\ self_Dq obj = Some Dq /\
    length hq = length q /\ length Dq = length q /\
    forall figlabel : option (Z + string),
      plot obj figlabel
      = [ plt_figure match figlabel with
                     | None => inr "Multifractal Spectrum"%string
                     | Some l => l
                     end;
          plt_plot (Some hq) (Some Dq) "ko-"%string;
          plt_grid;
          plt_xlabel "h(q)"%string;
          plt_ylabel "D(q)"%string;
          plt_suptitle (String.append (mrq_name mrq)
                          " - multifractal spectrum"%string);
          plt_draw ].
Proof.
  rewrite init_spec. cbv zeta. intros Hobj.
  apply bind_ok in Hobj as [rows [Hrows Hobj]].
  apply bind_ok in Hobj as [wj [Hwj Hobj]].
  apply bind_ok in Hobj as [pairs [Hpairs Hobj]]. injection Hobj as <-.
  pose proof (map_result_ok_length _ _ _ Hpairs) as Hlen.
  rewrite length_seq in Hlen.
  exists (map snd pairs), (map fst pairs). rewrite !length_map.
  repeat (split; [first [reflexivity | assumption]|]).
  intros figlabel. reflexivity.
Qed.

End EdgeBehaviour.

(* ================================================================= *)
(** ** More theorems at the sample inputs *)

Section MoreSamples.
Local Open Scope R_scope.

Lemma mrq3_abs_same_magnitudes :
  same_magnitudes Sample.mrq3 Sample2.mrq3_abs.
Proof.
  split; [reflexivity|]. split; [reflexivity|]. intros j.
  unfold Sample.mrq3, Sample2.mrq3_abs. cbn [Py.lookup mrq_values].
  assert (H2 : Rabs (-2) = Rabs 2)
    by (rewrite <- (Rabs_Ropp 2); f_equal; lra).
  destruct (1 =? j)%Z; [cbn [option_map map np_abs RealArith.numeric];
                        rewrite H2; reflexivity|].
  destruct (2 =? j)%Z; [reflexivity|].
  destruct (3 =? j)%Z; reflexivity.
Qed.

End MoreSamples.

Lemma X5_orders_concatenate_witness :
  exists (obj : MultifractalSpectrum R) (hq1 Dq1 hq2 Dq2 : list R),
    spectrum (__init__ Utils.linear_regression Sample.mrq3 [0%R] 1 3 0)
    = Ok (Some hq1, Some Dq1) /\
    spectrum (__init__ Utils.linear_regression Sample.mrq3 [2%R] 1 3 0)
    = Ok (Some hq2, Some Dq2) /\
    __init__ Utils.linear_regression Sample.mrq3 ([0%R] ++ [2%R]) 1 3 0
    = Ok obj /\
    self_hq obj = Some (hq1 ++ hq2) /\ self_Dq obj = Some (Dq1 ++ Dq2).
Proof.
  destruct (__init__ Utils.linear_regression Sample.mrq3 [0%R] 1 3 0)
    as [obj1|e] eqn:E1; [|discriminate E1].
  destruct (__init__ Utils.linear_regression Sample.mrq3 [2%R] 1 3 0)
    as [obj2|e] eqn:E2; [|discriminate E2].
  destruct (X5_orders_concatenate Utils.linear_regression Sample.mrq3
              [0%R] [2%R] 1 3 0 obj1 obj2 E1 E2)
    as [obj [hq1 [Dq1 [hq2 [Dq2 [H1 [H2 [H3 [H4 [H5 [H6 H7]]]]]]]]]]].
  exists obj, hq1, Dq1, hq2, Dq2. cbn [spectrum fmap].
  rewrite H1, H2, H3, H4. auto.
Defined.

Lemma X6_entry_of_its_order_alone_witness :
  exists (obj obj1 : MultifractalSpectrum R) (hq Dq : list R) (h d : R),
    __init__ Utils.linear_regression Sample.mrq3 [0%R; 2%R] 1 3 0 = Ok obj /\
    self_hq obj = Some hq /\ self_Dq obj = Some Dq /\
    nth_error hq 1 = Some h /\ nth_error Dq 1 = Some d /\
    __init__ Utils.linear_regression Sample.mrq3 [2%R] 1 3 0 = Ok obj1 /\
    self_hq obj1 = Some [h] /\ self_Dq obj1 = Some [d].
Proof.
  destruct (__init__ Utils.linear_regression Sample.mrq3 [0%R; 2%R] 1 3 0)
    as [obj|e] eqn:E; [|discriminate E].
  destruct (X6_entry_of_its_order_alone Utils.linear_regression Sample.mrq3
              [0%R; 2%R] 1 3 0 obj 1 2%R E eq_refl)
    as [obj1 [hq [Dq [h [d H]]]]].
  exists obj, obj1, hq, Dq, h, d. split; [reflexivity | exact H].
Defined.

Lemma X7_scale_without_count_witness :
  __init__ Utils.linear_regression Sample2.mrq3_no_count [] 3 3 0
  = Raise (KeyError 2).
Proof.
  apply (X7_scale_without_count Utils.linear_regression
           Sample2.mrq3_no_count [] 3 3 0 [1] [3] 2).
  - reflexivity.
  - intros j [<- | []]. discriminate.
  - reflexivity.
Defined.

Lemma X8_ordinary_rejects_no_window_witness :
  exists x y w,
    Utils.linear_regression x y w = Raise DegenerateRegressionError.
Proof.
  apply (X8_ordinary_rejects_no_window Utils.linear_regression Sample.mrq3
           [0%R] 7 (-2) 0 DegenerateRegressionError).
  - discriminate.
  - intros j [<- | [<- | [<- | []]]]; discriminate.
  - reflexivity.
Defined.

Lemma X9_regression_input_lengths_witness :
  exists (U V : list (list R)) (y z : list R),
    compute_UV (init_state Sample.mrq3 [0%R; 2%R] 2 5 0) = Ok (U, V) /\
    length (Py.range 2 (5 + 1)) = 4%nat /\
    Np.slice_column U (2 - 1) 5 1 = Ok y /\
    Np.slice_column V (2 - 1) 5 1 = Ok z /\
    length y = 2%nat /\ length z = 2%nat.
Proof.
  destruct (compute_UV (init_state Sample.mrq3 [0%R; 2%R] 2 5 0))
    as [[U V]|e] eqn:E; [|discriminate E].
  destruct (X9_regression_input_lengths Sample.mrq3 [0%R; 2%R] 2 5 0 3 U V
              mrq3_scales ltac:(lia) ltac:(lia) E)
    as [Hx [_ Hyz]].
  destruct (Hyz 1%nat ltac:(simpl; lia)) as [y [z [Hy [Hz [Hly Hlz]]]]].
  exists U, V, y, z. split; [reflexivity|].
  split; [exact Hx|]. auto.
Defined.

Lemma X10_only_magnitudes_matter_witness :
  spectrum (__init__ Utils.linear_regression Sample.mrq3 [0%R; 2%R] 1 3 1)
  = spectrum (__init__ Utils.linear_regression Sample2.mrq3_abs
                [0%R; 2%R] 1 3 1).
Proof.
  exact (proj2 (X10_only_magnitudes_matter Utils.linear_regression
                  Sample.mrq3 Sample2.mrq3_abs [0%R; 2%R] 1 3 1
                  mrq3_abs_same_magnitudes)).
Defined.

Lemma X11_plot_draws_the_spectrum_witness :
  exists (obj : MultifractalSpectrum R) (hq Dq : list R),
    __init__ Utils.linear_regression Sample.mrq3 [0%R; 2%R] 1 3 0 = Ok obj /\
    length hq = 2%nat /\ length Dq = 2%nat /\
    plot obj None
    = [ plt_figure (inr "Multifractal Spectrum"%string);
        plt_plot (Some hq) (Some Dq) "ko-"%string;
        plt_grid;
        plt_xlabel "h(q)"%string;
        plt_ylabel "D(q)"%string;
        plt_suptitle "sample - multifractal spectrum"%string;
        plt_draw ].
Proof.
  destruct (__init__ Utils.linear_regression Sample.mrq3 [0%R; 2%R] 1 3 0)
    as [obj|e] eqn:E; [|discriminate E].
  destruct (X11_plot_draws_the_spectrum Utils.linear_regression Sample.mrq3
              [0%R; 2%R] 1 3 0 obj E)
    as [hq [Dq [_ [_ [Hlh [HlD Hplot]]]]]].
  exists obj, hq, Dq. split; [reflexivity|].
  split; [exact Hlh|]. split; [exact HlD|]. exact (Hplot None).
Defined.
